(** * SoftLayer Ansible modules: the key and server reconcilers

    A shallow embedding of [sl_sshkey.py] and [sl_vs_server.py]: the
    fingerprint helper, the two key flows and the two server flows, with
    the calls to the SoftLayer managers kept as events of a small program
    monad, so that the sequence of provider calls of a run can be read off
    and compared with what the specification promises. *)

From Stdlib Require Import ZArith List String Ascii Bool Lia DecimalString.
Import ListNotations.
Open Scope string_scope.
Open Scope list_scope.
Open Scope Z_scope.

(** ** The parts of the Python library the modules call *)

(** Exceptions the modules can raise and never catch. *)
Inductive PyExn : Type :=
| AttributeError      (* [None.strip()] *)
| IndexError          (* [l[i]] out of range *)
| UnicodeError        (* [.encode('ascii')] on a non-ASCII character *)
| Base64Error         (* [base64.b64decode]: TypeError in Python 2,
                         binascii.Error in Python 3 *)
| KeyError            (* [d[key]] on a missing key *)
| ProviderError.      (* raised inside a SoftLayer manager call *)

Module PyStr.

Definition code (c : ascii) : Z := Z.of_nat (nat_of_ascii c).

(** The characters [str.strip] and [str.split] take for whitespace, among
    those below 256: tab to carriage return, the separators 0x1c to 0x1f,
    space, 0x85 and 0xa0. *)
Definition isspace (c : ascii) : bool :=
  let n := code c in
  ((9 <=? n) && (n <=? 13)) || ((28 <=? n) && (n <=? 32))
  || (n =? 133) || (n =? 160).

Fixpoint lstrip (s : list ascii) : list ascii :=
  match s with
  | c :: r => if isspace c then lstrip r else s
  | [] => []
  end.

Definition rstrip (s : list ascii) : list ascii := rev (lstrip (rev s)).

(** [s.strip()] *)
Definition strip (s : list ascii) : list ascii := rstrip (lstrip s).

(** [s.split()] with no separator: the maximal runs of characters that
    are not whitespace, in order.  [cur] holds the field being read,
    reversed. *)
Fixpoint split_from (cur : list ascii) (s : list ascii) : list (list ascii) :=
  match s with
  | [] => match cur with [] => [] | _ => [rev cur] end
  | c :: r =>
      if isspace c
      then match cur with
           | [] => split_from [] r
           | _ => rev cur :: split_from [] r
           end
      else split_from (c :: cur) r
  end.

Definition split (s : list ascii) : list (list ascii) := split_from [] s.

(** [s.encode('ascii')]: the bytes of [s], or UnicodeError. *)
Definition encode_ascii (s : list ascii) : PyExn + list Z :=
  if forallb (fun c => code c <? 128) s
  then inr (map code s)
  else inl UnicodeError.

(** [sep.join(parts)] *)
Fixpoint join (sep : string) (parts : list string) : string :=
  match parts with
  | [] => ""
  | [p] => p
  | p :: rest => (p ++ sep ++ join sep rest)%string
  end.

(** [s[::2]] and [s[1::2]] *)
Fixpoint evens (s : list ascii) : list ascii :=
  match s with
  | a :: _ :: r => a :: evens r
  | [a] => [a]
  | [] => []
  end.

Definition odds (s : list ascii) : list ascii :=
  match s with
  | _ :: r => evens r
  | [] => []
  end.

End PyStr.

(** [binascii.a2b_base64] in its default mode, which is what
    [base64.b64decode] calls: characters outside the alphabet are skipped,
    a pad sequence ends the input, and left-over bits are an error. *)
Module Base64.

Definition PAD : Z := 61.

(** [table_a2b_base64]: the 6-bit value of an alphabet character.  The
    pad character has an entry of its own, with value 0. *)
Definition table_a2b (c : Z) : option Z :=
  if (65 <=? c) && (c <=? 90) then Some (c - 65)
  else if (97 <=? c) && (c <=? 122) then Some (c - 71)
  else if (48 <=? c) && (c <=? 57) then Some (c + 4)
  else if c =? 43 then Some 62
  else if c =? 47 then Some 63
  else if c =? PAD then Some 0
  else None.

(** [binascii_find_valid]: the [(num+1)]-th valid character of [s], or -1. *)
Fixpoint find_valid (s : list Z) (num : nat) : Z :=
  match s with
  | [] => -1
  | c :: r =>
      match (if c <=? 127 then table_a2b c else None), num with
      | Some _, O => c
      | Some _, S n => find_valid r n
      | None, _ => find_valid r num
      end
  end.

(** The decoding loop; the result is the final [leftbits] and the bytes
    written, last first. *)
Fixpoint a2b_loop (data : list Z) (quad_pos leftchar leftbits : Z)
         (out : list Z) : Z * list Z :=
  match data with
  | [] => (leftbits, out)
  | c :: rest =>
      if (127 <? c) || (c =? 13) || (c =? 10) || (c =? 32)
      then a2b_loop rest quad_pos leftchar leftbits out
      else if c =? PAD
      then if (quad_pos <? 2)
              || ((quad_pos =? 2) && negb (find_valid data 1 =? PAD))
           then a2b_loop rest quad_pos leftchar leftbits out
           else (0, out)
      else match table_a2b c with
           | None => a2b_loop rest quad_pos leftchar leftbits out
           | Some v =>
               let quad_pos := Z.land (quad_pos + 1) 3 in
               let leftchar := Z.lor (Z.shiftl leftchar 6) v in
               let leftbits := leftbits + 6 in
               if 8 <=? leftbits
               then let leftbits := leftbits - 8 in
                    a2b_loop rest quad_pos
                             (Z.land leftchar (Z.shiftl 1 leftbits - 1))
                             leftbits
                             (Z.land (Z.shiftr leftchar leftbits) 255 :: out)
               else a2b_loop rest quad_pos leftchar leftbits out
           end
  end.

Definition b64decode (s : list Z) : PyExn + list Z :=
  let '(leftbits, out) := a2b_loop s 0 0 0 [] in
  if leftbits =? 0 then inr (rev out) else inl Base64Error.

End Base64.

(** [hashlib.md5]: the MD5 digest of RFC 1321 over 32-bit words kept in [Z]. *)
Module Hashlib.

Definition w32 (x : Z) : Z := Z.land x 4294967295.
Definition not32 (x : Z) : Z := Z.lxor x 4294967295.
Definition rotl32 (x n : Z) : Z :=
  w32 (Z.lor (Z.shiftl x n) (Z.shiftr x (32 - n))).

Definition K : list Z :=
  [ 3614090360; 3905402710; 606105819; 3250441966;
    4118548399; 1200080426; 2821735955; 4249261313;
    1770035416; 2336552879; 4294925233; 2304563134;
    1804603682; 4254626195; 2792965006; 1236535329;
    4129170786; 3225465664; 643717713; 3921069994;
    3593408605; 38016083; 3634488961; 3889429448;
    568446438; 3275163606; 4107603335; 1163531501;
    2850285829; 4243563512; 1735328473; 2368359562;
    4294588738; 2272392833; 1839030562; 4259657740;
    2763975236; 1272893353; 4139469664; 3200236656;
    681279174; 3936430074; 3572445317; 76029189;
    3654602809; 3873151461; 530742520; 3299628645;
    4096336452; 1126891415; 2878612391; 4237533241;
    1700485571; 2399980690; 4293915773; 2240044497;
    1873313359; 4264355552; 2734768916; 1309151649;
    4149444226; 3174756917; 718787259; 3951481745 ].

Definition shifts : list Z :=
  [ 7; 12; 17; 22; 7; 12; 17; 22; 7; 12; 17; 22; 7; 12; 17; 22;
    5; 9; 14; 20; 5; 9; 14; 20; 5; 9; 14; 20; 5; 9; 14; 20;
    4; 11; 16; 23; 4; 11; 16; 23; 4; 11; 16; 23; 4; 11; 16; 23;
    6; 10; 15; 21; 6; 10; 15; 21; 6; 10; 15; 21; 6; 10; 15; 21 ].

(** Little-endian bytes of a word and back. *)
Fixpoint le_bytes (n : nat) (x : Z) : list Z :=
  match n with
  | O => []
  | S m => Z.land x 255 :: le_bytes m (Z.shiftr x 8)
  end.

Fixpoint le_word (bs : list Z) : Z :=
  match bs with
  | [] => 0
  | b :: r => Z.lor b (Z.shiftl (le_word r) 8)
  end.

Fixpoint words (n : nat) (bs : list Z) : list Z :=
  match n with
  | O => []
  | S m => le_word (firstn 4 bs) :: words m (skipn 4 bs)
  end.

(** The message followed by 0x80, zeros up to 56 modulo 64, and the bit
    length on 8 bytes. *)
Definition pad (msg : list Z) : list Z :=
  let len := Z.of_nat (List.length msg) in
  let zeros := Z.to_nat ((55 - len) mod 64) in
  msg ++ [128] ++ repeat 0 zeros ++ le_bytes 8 (Z.land (8 * len) (2 ^ 64 - 1)).

Definition step (M : list Z) (st : Z * Z * Z * Z) (i : Z) : Z * Z * Z * Z :=
  let '(A, B, C, D) := st in
  let '(F, g) :=
    if i <? 16 then (Z.lor (Z.land B C) (Z.land (not32 B) D), i)
    else if i <? 32 then (Z.lor (Z.land D B) (Z.land (not32 D) C), (5 * i + 1) mod 16)
    else if i <? 48 then (Z.lxor (Z.lxor B C) D, (3 * i + 5) mod 16)
    else (Z.lxor C (Z.lor B (not32 D)), (7 * i) mod 16) in
  let F := w32 (F + A + nth (Z.to_nat i) K 0 + nth (Z.to_nat g) M 0) in
  (D, w32 (B + rotl32 F (nth (Z.to_nat i) shifts 0)), B, C).

Definition block (st : Z * Z * Z * Z) (chunk : list Z) : Z * Z * Z * Z :=
  let M := words 16 chunk in
  let '(A, B, C, D) := st in
  let '(A', B', C', D') :=
    fold_left (step M) (map Z.of_nat (seq 0 64)) st in
  (w32 (A + A'), w32 (B + B'), w32 (C + C'), w32 (D + D')).

Fixpoint blocks (n : nat) (st : Z * Z * Z * Z) (data : list Z) : Z * Z * Z * Z :=
  match n with
  | O => st
  | S m => blocks m (block st (firstn 64 data)) (skipn 64 data)
  end.

(** [hashlib.md5(msg).digest()]: 16 bytes. *)
Definition md5 (msg : list Z) : list Z :=
  let data := pad msg in
  let '(A, B, C, D) :=
    blocks (Nat.div (List.length data) 64)
           (1732584193, 4023233417, 2562383102, 271733878) data in
  le_bytes 4 A ++ le_bytes 4 B ++ le_bytes 4 C ++ le_bytes 4 D.

Definition hexchar (n : Z) : ascii :=
  if n <? 10 then ascii_of_nat (Z.to_nat (48 + n))
  else ascii_of_nat (Z.to_nat (87 + n)).

(** The two lowercase hex digits of a byte, high nibble first. *)
Definition hexbyte (b : Z) : list ascii :=
  [hexchar (Z.shiftr b 4); hexchar (Z.land b 15)].

(** [hashlib.md5(msg).hexdigest()] *)
Definition md5_hexdigest (msg : list Z) : list ascii :=
  flat_map hexbyte (md5 msg).

End Hashlib.

(** ** Values exchanged with Ansible and with the SoftLayer managers *)

(** The values a module parameter or a keyword argument can hold. *)
#[warnings="-register-all"]
Inductive PyVal : Type :=
| PNone
| PBool (b : bool)
| PInt (n : Z)
| PStr (s : string)
| PList (l : list PyVal).

(** Python truth value: [None], [False], [0], [''] and [[]] are false. *)
Definition truthy (v : PyVal) : bool :=
  match v with
  | PNone => false
  | PBool b => b
  | PInt n => negb (n =? 0)
  | PStr s => negb (s =? "")%string
  | PList l => match l with [] => false | _ => true end
  end.

Definition of_opt {A} (inj : A -> PyVal) (o : option A) : PyVal :=
  match o with Some a => inj a | None => PNone end.

(** A [dict] with string keys, in insertion order. *)
Definition dict : Type := list (string * PyVal).

Fixpoint getitem (d : dict) (key : string) : option PyVal :=
  match d with
  | [] => None
  | (k, v) :: r => if (k =? key)%string then Some v else getitem r key
  end.

(** [d[key] = v] *)
Fixpoint setitem (d : dict) (key : string) (v : PyVal) : dict :=
  match d with
  | [] => [(key, v)]
  | (k, v') :: r =>
      if (k =? key)%string then (k, v) :: r else (k, v') :: setitem r key v
  end.

(** The keys of [d], in the order [for key in d] visits them. *)
Definition dict_keys (d : dict) : list string := map fst d.

(** The provider's record of an SSH key. *)
Record Key : Type := {
  key_id : Z;
  key_label : string;
  key_fingerprint : string;
  key_text : string
}.

(** The provider's record of a virtual server; [inst_details] stands for
    the fields only the full record carries. *)
Record Instance : Type := {
  inst_id : Z;
  inst_hostname : string;
  inst_domain : string;
  inst_datacenter : string;
  inst_details : dict
}.

(** The calls made on [SoftLayer.SshKeyManager] and [SoftLayer.VSManager],
    with their keyword arguments. *)
Module mgr.

Inductive Call : Type :=
| list_keys (label : option string)
| add_key (public_key : option string) (label : string)
| delete_key (id : Z)
| list_instances (hostname domain : string) (datacenter : option string)
| get_instance (id : Z)
| create_instance (instance_specs : dict)
| wait_for_ready (id limit : Z)
| wait_for_transaction (id limit : Z)
| cancel_instance (id : Z).

(** What a call returns.  Where the modules drop the result it is [unit];
  [add_key] returns the new key or a false value. *)
Definition Resp (c : Call) : Type :=
match c with
| list_keys _ => list Key
| add_key _ _ => option Key
| delete_key _ => unit
| list_instances _ _ _ => list Instance
| get_instance _ => Instance
| create_instance _ => unit
| wait_for_ready _ _ => bool
| wait_for_transaction _ _ => unit
| cancel_instance _ => unit
end.

End mgr.

Inductive Payload : Type :=
| NoPayload
| key_ (k : Key)            (* [key=k] *)
| server_ (i : Instance).   (* [server=i] *)

(** How an invocation of a module ends. *)
Inductive Outcome : Type :=
| ExitJson (changed : bool) (payload : Payload) (msg : option string)
| FailJson (msg : string)
| Raised (e : PyExn)        (* an exception nobody catches *)
| Returned.                 (* [main] returned without exiting *)

(** ** Programs over provider calls *)

(** A module run: it returns, it stops ([exit_json] and [fail_json] leave
    through [SystemExit], an uncaught exception unwinds), or it calls the
    provider and goes on with the answer. *)
Inductive Prog (A : Type) : Type :=
| Ret (a : A)
| Stop (o : Outcome)
| Vis (c : mgr.Call) (k : mgr.Resp c -> Prog A).

Arguments Ret {A} a.
Arguments Stop {A} o.
Arguments Vis {A} c k.

Fixpoint bind {A B} (p : Prog A) (f : A -> Prog B) : Prog B :=
  match p with
  | Ret a => f a
  | Stop o => Stop o
  | Vis c k => Vis c (fun r => bind (k r) f)
  end.

Notation "x <- p ;; q" := (bind p (fun x => q))
  (at level 61, p at next level, right associativity).
Notation "p ;; q" := (bind p (fun _ => q))
  (at level 61, right associativity).

Definition call (c : mgr.Call) : Prog (mgr.Resp c) := Vis c Ret.
Definition exit_json {A} (changed : bool) (payload : Payload)
           (msg : option string) : Prog A :=
  Stop (ExitJson changed payload msg).
Definition fail_json {A} (msg : string) : Prog A := Stop (FailJson msg).
Definition raise {A} (e : PyExn) : Prog A := Stop (Raised e).

(** A pure computation that can raise. *)
Definition lift {A} (r : PyExn + A) : Prog A :=
  match r with inl e => raise e | inr a => Ret a end.

(** [if c: body] *)
Definition when (c : bool) (body : Prog unit) : Prog unit :=
  if c then body else Ret tt.

(** [for x in l: body] *)
Fixpoint for_each {A} (l : list A) (body : A -> Prog unit) : Prog unit :=
  match l with
  | [] => Ret tt
  | x :: r => body x ;; for_each r body
  end.

(** A provider answers a call in a world and leaves a new world; [None]
    is an exception raised inside the manager. *)
Definition Provider (World : Type) : Type :=
  forall c : mgr.Call, World -> option (mgr.Resp c) * World.

Section Run.

Context {World : Type} (respond : Provider World).

(** The outcome of a run, the calls made in order, and the world left. *)
Fixpoint run {A} (p : Prog A) (w : World) : Outcome * list mgr.Call * World :=
  match p with
  | Ret _ => (Returned, [], w)
  | Stop o => (o, [], w)
  | Vis c k =>
      match respond c w with
      | (None, w') => (Raised ProviderError, [c], w')
      | (Some r, w') =>
          let '(o, cs, w'') := run (k r) w' in (o, c :: cs, w'')
      end
  end.

End Run.

Definition outcome {W} (r : Outcome * list mgr.Call * W) : Outcome := fst (fst r).
Definition calls {W} (r : Outcome * list mgr.Call * W) : list mgr.Call := snd (fst r).
Definition world {W} (r : Outcome * list mgr.Call * W) : W := snd r.

(** The [state] parameter; [choices=['present', 'absent']] lets no other
    value reach [main]. *)
Inductive State : Type := present | absent.

(** ** sl_sshkey.py *)
Module sl_sshkey.

(** [module.params] as [argument_spec] types it. *)
Record Params : Type := {
  username : string;
  api_key : string;
  state : State;
  label : string;
  public_key : option string
}.

(** Determines and returns the fingerprint for the given public_key. *)
Definition _get_fingerprint (public_key : option string) : PyExn + string :=
  match public_key with
  | None => inl AttributeError
  | Some text =>
      match nth_error (PyStr.split (PyStr.strip (list_ascii_of_string text))) 1 with
      | None => inl IndexError
      | Some field =>
          match PyStr.encode_ascii field with
          | inl e => inl e
          | inr encoded =>
              match Base64.b64decode encoded with
              | inl e => inl e
              | inr key =>
                  let fp_plain := Hashlib.md5_hexdigest key in
                  inr (PyStr.join ":"
                         (map (fun ab => String (fst ab) (String (snd ab) ""))
                              (combine (PyStr.evens fp_plain)
                                       (PyStr.odds fp_plain))))
              end
          end
      end
  end.

Definition msg_fingerprint_exists (k : Key) : string :=
  "A key with this fingerprint already exists on this account, using key "
  ++ key_label k.

Definition msg_label_exists (label : string) : string :=
  "A key with label " ++ label
  ++ " already exists with a different public key on this account".

Definition msg_key_required : string :=
  "A key must be given. No sshkey created.".

Definition msg_not_created : string :=
  "The key was not succesfully created".

Definition msg_ambiguous (label : string) : string :=
  "More than one sshkey named " ++ label ++ ". No keys deleted".

(** Checks if the given key already exists by looking for its
    fingerprint.  Returns the existing key if it finds a match, creates
    a new key if not. *)
Definition _create_key (module : Params) : Prog unit :=
  let label := label module in
  let public_key := public_key module in
  finger <- lift (_get_fingerprint public_key) ;;
  keys <- call (mgr.list_keys None) ;;
  for_each keys (fun k =>
    when (key_fingerprint k =? finger)%string
      (if (key_label k =? label)%string
       then exit_json false (key_ k) None
       else exit_json false (key_ k) (Some (msg_fingerprint_exists k))) ;;
    when (key_label k =? label)%string
      (fail_json (msg_label_exists label))) ;;
  when (negb (truthy (of_opt PStr public_key)))
    (fail_json msg_key_required) ;;
  key <- call (mgr.add_key public_key label) ;;
  match key with
  | Some key => exit_json true (key_ key) None
  | None => fail_json msg_not_created
  end.

(** Deletes the key with the given label. *)
Definition _delete_key (module : Params) : Prog unit :=
  let label := label module in
  keys <- call (mgr.list_keys (Some label)) ;;
  if (1 <? Z.of_nat (List.length keys))
  then fail_json (msg_ambiguous label)
  else match keys with
       | k :: _ => call (mgr.delete_key (key_id k)) ;;
                   exit_json true NoPayload None
       | [] => exit_json false NoPayload None
       end.

Definition main (HAS_SOFTLAYER : bool) (module : Params) : Prog unit :=
  when (negb HAS_SOFTLAYER)
    (fail_json "softlayer is required for this module") ;;
  match state module with
  | present => _create_key module
  | absent => _delete_key module
  end.

End sl_sshkey.

(** ** sl_vs_server.py *)
Module sl_vs_server.

(** [module.params] as [argument_spec] types it, defaults filled in. *)
Record Params : Type := {
  username : string;
  api_key : string;
  hostname : string;
  domain : string;
  state : State;
  cpus : Z;
  memory : Z;
  hourly : bool;
  local_disk : bool;
  datacenter : option string;
  os_code : option string;
  image_id : option Z;
  dedicated : bool;
  public_vlan : option Z;
  private_vlan : option Z;
  disks : option (list PyVal);
  post_uri : option string;
  private : option bool;
  ssh_keys : option (list PyVal);
  nic_speed : option Z;
  tags : option string;
  public_ip : option string;
  private_ip : option string;
  wait_for_ready : bool
}.

(** [module.params[name]] for the parameters read by name in a loop. *)
Definition params (module : Params) (name : string) : PyVal :=
  if (name =? "datacenter")%string then of_opt PStr (datacenter module)
  else if (name =? "public_vlan")%string then of_opt PInt (public_vlan module)
  else if (name =? "private_vlan")%string then of_opt PInt (private_vlan module)
  else if (name =? "disks")%string then of_opt PList (disks module)
  else if (name =? "post_uri")%string then of_opt PStr (post_uri module)
  else if (name =? "private")%string then of_opt PBool (private module)
  else if (name =? "ssh_keys")%string then of_opt PList (ssh_keys module)
  else if (name =? "nic_speed")%string then of_opt PInt (nic_speed module)
  else if (name =? "tags")%string then of_opt PStr (tags module)
  else PNone.

Definition msg_must_be_specified (key : string) : string :=
  key ++ " must be specified to order instance".

Definition msg_both : string :=
  "image_id and os_code cannot both be specified".

Definition msg_neither : string :=
  "You must specify either the OS code or image id".

Definition msg_timeout : string :=
  "Timeout while waiting for server. It may not be ready.".

Definition msg_none_found : string :=
  "no servers were found with this specification".

(** The basic specifications that need to be specified.  The loop over
    them visits the keys in the order written here, the insertion order
    of a [dict]; under an interpreter that orders a [dict] otherwise only
    the key named first, when several have no value, changes. *)
Definition basic_specs (module : Params) : dict :=
  [ ("domain", PStr (domain module));
    ("hostname", PStr (hostname module));
    ("memory", PInt (memory module));
    ("cpus", PInt (cpus module));
    ("datacenter", of_opt PStr (datacenter module));
    ("hourly", PBool (hourly module)) ].

Definition optional_params : list string :=
  [ "public_vlan"; "private_vlan"; "disks"; "post_uri"; "private";
    "ssh_keys"; "nic_speed"; "tags" ].

(** [for optional_param in ...: if module.params[optional_param]:
    instance_specs[optional_param] = module.params[optional_param]] *)
Definition add_optional (module : Params) (names : list string)
           (instance_specs : dict) : dict :=
  fold_left (fun specs optional_param =>
               if truthy (params module optional_param)
               then setitem specs optional_param (params module optional_param)
               else specs)
            names instance_specs.

(** The part of [_create_server] that builds and checks
    [instance_specs], before the first call. *)
Definition order_specs (module : Params) : Prog dict :=
  let instance_specs := basic_specs module in
  (* Make sure all necessary keys have values *)
  for_each (dict_keys instance_specs) (fun key =>
    match getitem instance_specs key with
    | Some v => when (negb (truthy v)) (fail_json (msg_must_be_specified key))
    | None => raise KeyError
    end) ;;
  (* Check that either one of but not both of image_id and os_code were given *)
  let image_id := of_opt PInt (image_id module) in
  let os_code := of_opt PStr (os_code module) in
  instance_specs <-
    (if truthy image_id && truthy os_code then fail_json msg_both
     else if truthy image_id then Ret (setitem instance_specs "image_id" image_id)
     else if truthy os_code then Ret (setitem instance_specs "os_code" os_code)
     else fail_json msg_neither) ;;
  (* These will always have a boolean value stored *)
  let instance_specs := setitem instance_specs "local_disk" (PBool (local_disk module)) in
  let instance_specs := setitem instance_specs "dedicated" (PBool (dedicated module)) in
  (* Add any additional specifications *)
  Ret (add_optional module optional_params instance_specs).

(** Creates a virtual server on softlayer with the given specifications. *)
Definition _create_server (module : Params) : Prog unit :=
  let hostname := hostname module in
  let domain := domain module in
  instance_specs <- order_specs module ;;
  (* Create instance *)
  call (mgr.create_instance instance_specs) ;;
  found <- call (mgr.list_instances hostname domain None) ;;
  inst <- match found with
          | first :: _ => Ret first
          | [] => raise IndexError
          end ;;
  when (wait_for_ready module)
    (is_ready <- call (mgr.wait_for_ready (inst_id inst) 900) ;;
     if is_ready : bool
     then exit_json true (server_ inst) None
     else fail_json msg_timeout) ;;
  inst <- call (mgr.get_instance (inst_id inst)) ;;
  exit_json true (server_ inst) None.

(** Returns a list of servers that match the given parameters. *)
Definition _find_servers (module : Params) : Prog (list Instance) :=
  call (mgr.list_instances (hostname module) (domain module)
          (if truthy (params module "datacenter")
           then datacenter module else None)).

(** Deletes server(s) with the given hostname and domain.  If multiple
    instances exist with the same hostname and domain, they will all be
    deleted. *)
Definition _delete_server (module : Params) : Prog unit :=
  inst <- _find_servers module ;;
  when (match inst with [] => true | _ => false end)
    (exit_json false NoPayload (Some msg_none_found)) ;;
  for_each inst (fun server =>
    call (mgr.wait_for_transaction (inst_id server) 900) ;;
    call (mgr.cancel_instance (inst_id server)) ;;
    Ret tt) ;;
  exit_json true NoPayload None.

Definition main (HAS_SOFTLAYER : bool) (module : Params) : Prog unit :=
  when (negb HAS_SOFTLAYER)
    (fail_json "softlayer is required for this module") ;;
  let hostname := hostname module in
  let domain := domain module in
  match state module with
  | present =>
      (* If a server exists with that hostname and domain, return it.
         Create a new server otherwise *)
      inst <- call (mgr.list_instances hostname domain None) ;;
      match inst with
      | first :: _ =>
          inst <- call (mgr.get_instance (inst_id first)) ;;
          exit_json false (server_ inst) None
      | [] => _create_server module
      end
  | absent => _delete_server module
  end.

End sl_vs_server.

(** ** Two providers to run the flows against *)

(** An account held in memory: the keys and servers it lists are the ones
    it was given or asked to create. *)
Record Account : Type := {
  acct_keys : list Key;
  acct_instances : list Instance;
  acct_next_id : Z
}.

Definition spec_str (d : dict) (key : string) : string :=
match getitem d key with Some (PStr s) => s | _ => "" end.

Definition listed (hostname domain : string) (datacenter : option string)
           (i : Instance) : bool :=
(inst_hostname i =? hostname)%string
&& (inst_domain i =? domain)%string
&& match datacenter with
   | Some dc => (inst_datacenter i =? dc)%string
   | None => true
   end.

Definition account : Provider Account :=
fun c w =>
  match c return option (mgr.Resp c) * Account with
  | mgr.list_keys None => (Some (acct_keys w), w)
  | mgr.list_keys (Some label) =>
      (Some (filter (fun k => (key_label k =? label)%string) (acct_keys w)), w)
  | mgr.add_key public_key label =>
      match public_key, sl_sshkey._get_fingerprint public_key with
      | Some text, inr fp =>
          let k := {| key_id := acct_next_id w; key_label := label;
                      key_fingerprint := fp; key_text := text |} in
          (Some (Some k),
           {| acct_keys := acct_keys w ++ [k];
              acct_instances := acct_instances w;
              acct_next_id := acct_next_id w + 1 |})
      | _, _ => (Some None, w)
      end
  | mgr.delete_key id =>
      (Some tt,
       {| acct_keys := filter (fun k => negb (key_id k =? id)) (acct_keys w);
          acct_instances := acct_instances w;
          acct_next_id := acct_next_id w |})
  | mgr.list_instances hostname domain datacenter =>
      (Some (filter (listed hostname domain datacenter) (acct_instances w)), w)
  | mgr.get_instance id =>
      (find (fun i => inst_id i =? id) (acct_instances w), w)
  | mgr.create_instance specs =>
      let i := {| inst_id := acct_next_id w;
                  inst_hostname := spec_str specs "hostname";
                  inst_domain := spec_str specs "domain";
                  inst_datacenter := spec_str specs "datacenter";
                  inst_details := specs |} in
      (Some tt,
       {| acct_keys := acct_keys w;
          acct_instances := acct_instances w ++ [i];
          acct_next_id := acct_next_id w + 1 |})
  | mgr.wait_for_ready _ _ => (Some true, w)
  | mgr.wait_for_transaction _ _ => (Some tt, w)
  | mgr.cancel_instance id =>
      (Some tt,
       {| acct_keys := acct_keys w;
          acct_instances :=
            filter (fun i => negb (inst_id i =? id)) (acct_instances w);
          acct_next_id := acct_next_id w |})
  end.

Definition empty_account : Account :=
{| acct_keys := []; acct_instances := []; acct_next_id := 1 |}.

(** A provider on which nothing ever shows up: orders are accepted, every
    listing is empty, no server becomes ready. *)
Definition blank : Provider unit :=
fun c w =>
  match c return option (mgr.Resp c) * unit with
  | mgr.list_keys _ => (Some [], w)
  | mgr.add_key _ _ => (Some None, w)
  | mgr.delete_key _ => (Some tt, w)
  | mgr.list_instances _ _ _ => (Some [], w)
  | mgr.get_instance _ => (None, w)
  | mgr.create_instance _ => (Some tt, w)
  | mgr.wait_for_ready _ _ => (Some false, w)
  | mgr.wait_for_transaction _ _ => (Some tt, w)
  | mgr.cancel_instance _ => (Some tt, w)
  end.

(** ** The fingerprint as the specification words it *)

Module Spec.

(** A digest rendered as lowercase hex, one pair of digits per byte, the
    pairs separated by colons. *)
Definition render (digest : list Z) : string :=
PyStr.join ":" (map (fun b => string_of_list_ascii (Hashlib.hexbyte b)) digest).

(** The second whitespace-separated field of the text. *)
Definition second_field (text : string) : option (list ascii) :=
nth_error (PyStr.split (list_ascii_of_string text)) 1.

(** The field as base64 text, decoded to raw bytes. *)
Definition decode (field : list ascii) : PyExn + list Z :=
match PyStr.encode_ascii field with
| inl e => inl e
| inr encoded => Base64.b64decode encoded
end.

(** Second field, decoded, hashed with the 128-bit digest, rendered. *)
Definition computeFingerprint (text : string) : option string :=
match second_field text with
| None => None
| Some field =>
    match decode field with
    | inl _ => None
    | inr key => Some (render (Hashlib.md5 key))
    end
end.

End Spec.

Definition result {A} (r : PyExn + A) : option A :=
match r with inr a => Some a | inl _ => None end.

(** ** Concrete requests and accounts *)

Definition bytes_of (s : string) : list Z :=
map PyStr.code (list_ascii_of_string s).

Definition rsa_key : string :=
"ssh-rsa AAAAB3NzaC1yc2EAAAADAQABAAAAgQC7 user@host".

Definition rsa_fingerprint : string :=
"66:ea:bf:78:ee:22:0b:7d:3f:48:49:54:7d:c7:4c:e2".

Definition key_request (st : State) (l : string) (pk : option string)
  : sl_sshkey.Params :=
{| sl_sshkey.username := "user"; sl_sshkey.api_key := "secret";
   sl_sshkey.state := st; sl_sshkey.label := l;
   sl_sshkey.public_key := pk |}.

(** What the loop of [_create_key] decides on a listing: the first key,
    in listing order, that has the fingerprint or the label ends the run. *)
Fixpoint first_hit (finger label : string) (ks : list Key) : option Outcome :=
match ks with
| [] => None
| k :: r =>
    if (key_fingerprint k =? finger)%string
    then Some (ExitJson false (key_ k)
                 (if (key_label k =? label)%string then None
                  else Some (sl_sshkey.msg_fingerprint_exists k)))
    else if (key_label k =? label)%string
    then Some (FailJson (sl_sshkey.msg_label_exists label))
    else first_hit finger label r
end.

(** The key of [rsa_key] under label k1, and another key under label k2. *)
Definition key_k1 : Key :=
{| key_id := 2; key_label := "k1"; key_fingerprint := rsa_fingerprint;
   key_text := rsa_key |}.

Definition key_k2 : Key :=
{| key_id := 1; key_label := "k2";
   key_fingerprint := "90:2f:bd:d2:b1:df:0c:4f:70:b4:a5:d2:35:25:e9:32";
   key_text := "ssh-rsa QUJD other@host" |}.

Definition account_of_keys (ks : list Key) : Account :=
{| acct_keys := ks; acct_instances := []; acct_next_id := 3 |}.

(** A second key under label k1. *)
Definition key_k1_again : Key :=
{| key_id := 3; key_label := "k1";
   key_fingerprint := "90:2f:bd:d2:b1:df:0c:4f:70:b4:a5:d2:35:25:e9:32";
   key_text := "ssh-rsa QUJD other@host" |}.

(** A server request with the defaults of [argument_spec]. *)
Definition server_request (st : State) (host dom : string)
           (dc os : option string) (img : option Z) (wait : bool)
  : sl_vs_server.Params :=
{| sl_vs_server.username := "user"; sl_vs_server.api_key := "secret";
   sl_vs_server.hostname := host; sl_vs_server.domain := dom;
   sl_vs_server.state := st;
   sl_vs_server.cpus := 8; sl_vs_server.memory := 16;
   sl_vs_server.hourly := true; sl_vs_server.local_disk := true;
   sl_vs_server.datacenter := dc; sl_vs_server.os_code := os;
   sl_vs_server.image_id := img; sl_vs_server.dedicated := false;
   sl_vs_server.public_vlan := None; sl_vs_server.private_vlan := None;
   sl_vs_server.disks := None; sl_vs_server.post_uri := None;
   sl_vs_server.private := None; sl_vs_server.ssh_keys := None;
   sl_vs_server.nic_speed := None; sl_vs_server.tags := None;
   sl_vs_server.public_ip := None; sl_vs_server.private_ip := None;
   sl_vs_server.wait_for_ready := wait |}.

Definition trash (id : Z) : Instance :=
{| inst_id := id; inst_hostname := "to_delete"; inst_domain := "trash-it.com";
   inst_datacenter := "dal05"; inst_details := [] |}.

Definition account_of_instances (l : list Instance) : Account :=
{| acct_keys := []; acct_instances := l; acct_next_id := 10 |}.

(** The order of a server vm1.d.com and what the account holds once it
    is placed. *)
Definition vm1_request (wait : bool) : sl_vs_server.Params :=
server_request present "vm1" "d.com" (Some "dal05") (Some "UBUNTU_LATEST")
               None wait.

Definition vm1_specs : dict :=
[("domain", PStr "d.com"); ("hostname", PStr "vm1");
 ("memory", PInt 16); ("cpus", PInt 8);
 ("datacenter", PStr "dal05"); ("hourly", PBool true);
 ("os_code", PStr "UBUNTU_LATEST");
 ("local_disk", PBool true); ("dedicated", PBool false)].

Definition vm1 : Instance :=
{| inst_id := 1; inst_hostname := "vm1"; inst_domain := "d.com";
   inst_datacenter := "dal05"; inst_details := vm1_specs |}.

Definition account_with_vm1 : Account :=
{| acct_keys := []; acct_instances := [vm1]; acct_next_id := 2 |}.


(** ** sl_config.py *)
Module sl_config.

(** [module.params] as [argument_spec] types it, [timeout] defaulted. *)
Record Params : Type := {
  username : string;
  api_key : string;
  timeout : Z;
  custom_url : option string
}.

Definition newline : string := String "010" "".

(** ["%d" % n] for an [int]. *)
Definition percent_d (n : Z) : string := NilZero.string_of_int (Z.to_int n).

Definition default_endpoint : string :=
  "https://api.softlayer.com/xmlrpc/v3.1/".

(** The text [_update_credentials] builds in [contents] and writes to
    the file. *)
Definition contents (module : Params) : string :=
  let contents := ("[softlayer]" ++ newline)%string in
  let contents :=
    (contents ++ ("username = " ++ username module ++ newline))%string in
  let contents :=
    (contents ++ ("api_key = " ++ api_key module ++ newline))%string in
  let contents :=
    if truthy (of_opt PStr (custom_url module))
    then (contents
          ++ ("endpoint_url = "
              ++ match custom_url module with Some u => u | None => "" end
              ++ newline))%string
    else (contents ++ ("endpoint_url = " ++ default_endpoint ++ newline))%string in
  (contents ++ ("timeout = " ++ percent_d (timeout module)))%string.

End sl_config.

(** ** What a run can call *)

(** Every call the program can make, whatever it is answered, passes [P]. *)
Fixpoint only {A} (P : mgr.Call -> bool) (p : Prog A) : Prop :=
match p with
| Ret _ => True
| Stop _ => True
| Vis c k => P c = true /\ forall r, only P (k r)
end.

(** The calls of the server flows. *)
Definition server_present_call (module : sl_vs_server.Params) (c : mgr.Call)
  : bool :=
match c with
| mgr.list_instances h d None =>
    (h =? sl_vs_server.hostname module)%string
    && (d =? sl_vs_server.domain module)%string
| mgr.get_instance _ => true
| mgr.create_instance _ => true
| mgr.wait_for_ready _ limit => limit =? 900
| _ => false
end.

Definition server_absent_call (module : sl_vs_server.Params) (c : mgr.Call)
  : bool :=
match c with
| mgr.list_instances h d _ =>
    (h =? sl_vs_server.hostname module)%string
    && (d =? sl_vs_server.domain module)%string
| mgr.wait_for_transaction _ limit => limit =? 900
| mgr.cancel_instance _ => true
| _ => false
end.

Definition is_create (c : mgr.Call) : bool :=
match c with mgr.create_instance _ => true | _ => false end.

(** The first basic specification, in the order of the loop, that has no
    value. *)
Definition first_missing (module : sl_vs_server.Params) : option string :=
option_map fst
  (find (fun kv => negb (truthy (snd kv))) (sl_vs_server.basic_specs module)).

(** The account, with one server whose cancellation the provider refuses. *)
Definition locked (bad : Z) : Provider Account :=
fun c w =>
  match c return option (mgr.Resp c) * Account with
  | mgr.cancel_instance id =>
      if id =? bad then (None, w) else account (mgr.cancel_instance id) w
  | c' => account c' w
  end.

(** The account, on which no server ever gets ready. *)
Definition never_ready : Provider Account :=
fun c w =>
  match c return option (mgr.Resp c) * Account with
  | mgr.wait_for_ready _ _ => (Some false, w)
  | c' => account c' w
  end.

(** A request with other values for [public_ip] and [private_ip]. *)
Definition with_ips (module : sl_vs_server.Params) (pub priv : option string)
  : sl_vs_server.Params :=
{| sl_vs_server.username := sl_vs_server.username module;
   sl_vs_server.api_key := sl_vs_server.api_key module;
   sl_vs_server.hostname := sl_vs_server.hostname module;
   sl_vs_server.domain := sl_vs_server.domain module;
   sl_vs_server.state := sl_vs_server.state module;
   sl_vs_server.cpus := sl_vs_server.cpus module;
   sl_vs_server.memory := sl_vs_server.memory module;
   sl_vs_server.hourly := sl_vs_server.hourly module;
   sl_vs_server.local_disk := sl_vs_server.local_disk module;
   sl_vs_server.datacenter := sl_vs_server.datacenter module;
   sl_vs_server.os_code := sl_vs_server.os_code module;
   sl_vs_server.image_id := sl_vs_server.image_id module;
   sl_vs_server.dedicated := sl_vs_server.dedicated module;
   sl_vs_server.public_vlan := sl_vs_server.public_vlan module;
   sl_vs_server.private_vlan := sl_vs_server.private_vlan module;
   sl_vs_server.disks := sl_vs_server.disks module;
   sl_vs_server.post_uri := sl_vs_server.post_uri module;
   sl_vs_server.private := sl_vs_server.private module;
   sl_vs_server.ssh_keys := sl_vs_server.ssh_keys module;
   sl_vs_server.nic_speed := sl_vs_server.nic_speed module;
   sl_vs_server.tags := sl_vs_server.tags module;
   sl_vs_server.public_ip := pub;
   sl_vs_server.private_ip := priv;
   sl_vs_server.wait_for_ready := sl_vs_server.wait_for_ready module |}.

(** The order of vm1 with tags, a NIC speed of 0 and [private=False]. *)
Definition vm1_tagged : sl_vs_server.Params :=
{| sl_vs_server.username := "user"; sl_vs_server.api_key := "secret";
   sl_vs_server.hostname := "vm1"; sl_vs_server.domain := "d.com";
   sl_vs_server.state := present;
   sl_vs_server.cpus := 8; sl_vs_server.memory := 16;
   sl_vs_server.hourly := true; sl_vs_server.local_disk := true;
   sl_vs_server.datacenter := Some "dal05";
   sl_vs_server.os_code := Some "UBUNTU_LATEST";
   sl_vs_server.image_id := None; sl_vs_server.dedicated := false;
   sl_vs_server.public_vlan := None; sl_vs_server.private_vlan := None;
   sl_vs_server.disks := None; sl_vs_server.post_uri := None;
   sl_vs_server.private := Some false; sl_vs_server.ssh_keys := None;
   sl_vs_server.nic_speed := Some 0; sl_vs_server.tags := Some "yellow";
   sl_vs_server.public_ip := None; sl_vs_server.private_ip := None;
   sl_vs_server.wait_for_ready := true |}.

Definition vm1_tagged_specs : dict := vm1_specs ++ [("tags", PStr "yellow")].

(** The order of vm1 billed by the month. *)
Definition vm1_monthly : sl_vs_server.Params :=
{| sl_vs_server.username := "user"; sl_vs_server.api_key := "secret";
   sl_vs_server.hostname := "vm1"; sl_vs_server.domain := "d.com";
   sl_vs_server.state := present;
   sl_vs_server.cpus := 8; sl_vs_server.memory := 16;
   sl_vs_server.hourly := false; sl_vs_server.local_disk := true;
   sl_vs_server.datacenter := Some "dal05";
   sl_vs_server.os_code := Some "UBUNTU_LATEST";
   sl_vs_server.image_id := None; sl_vs_server.dedicated := false;
   sl_vs_server.public_vlan := None; sl_vs_server.private_vlan := None;
   sl_vs_server.disks := None; sl_vs_server.post_uri := None;
   sl_vs_server.private := None; sl_vs_server.ssh_keys := None;
   sl_vs_server.nic_speed := None; sl_vs_server.tags := None;
   sl_vs_server.public_ip := None; sl_vs_server.private_ip := None;
   sl_vs_server.wait_for_ready := true |}.

Definition config_request (url : option string) : sl_config.Params :=
{| sl_config.username := "user1"; sl_config.api_key := "blahblahblah";
   sl_config.timeout := 60; sl_config.custom_url := url |}.

(** ** The library models on known vectors *)

Example md5_empty :
  string_of_list_ascii (Hashlib.md5_hexdigest [])
  = "d41d8cd98f00b204e9800998ecf8427e".
Proof. vm_compute. reflexivity. Qed.

Example md5_abc :
  string_of_list_ascii (Hashlib.md5_hexdigest (bytes_of "abc"))
  = "900150983cd24fb0d6963f7d28e17f72".
Proof. vm_compute. reflexivity. Qed.

Example md5_two_blocks :
  string_of_list_ascii (Hashlib.md5_hexdigest (repeat 97 70))
  = "0f5c6c4e740bfcc08c3c26ccb2673d46".
Proof. vm_compute. reflexivity. Qed.

Example md5_padding_boundaries :
  map (fun n => string_of_list_ascii (Hashlib.md5_hexdigest (repeat 97 n)))
      [55; 56; 63; 64; 119; 120]%nat
  = ["ef1772b6dff9a122358552954ad0df65"; "3b0c8ac703f828b04c6c197006d17218";
     "b06521f39153d618550606be297466d5"; "014842d480b571495a4a0363793f7367";
     "8a7bd0732ed6a28ce75f6dabc90e1613"; "5f61c0ccad4cac44c75ff505e1f1e537"].
Proof. vm_compute. reflexivity. Qed.

Example b64decode_key_material :
  Base64.b64decode (bytes_of "AAAAB3NzaC1yc2EAAAADAQABAAAAgQC7")
  = inr [0; 0; 0; 7; 115; 115; 104; 45; 114; 115; 97; 0; 0; 0; 3; 1; 0; 1;
         0; 0; 0; 129; 0; 187].
Proof. vm_compute. reflexivity. Qed.

Example b64decode_padding :
  map Base64.b64decode
      [bytes_of "QQ=="; bytes_of "QUI="; bytes_of "QUJD"; bytes_of "QUJD!";
       bytes_of "=QUJD"; bytes_of "QUJD===="; bytes_of "!!!!";
       bytes_of "QQ"; bytes_of "Q"; bytes_of "QUJDRA"; bytes_of "QQ=A"]
  = [inr [65]; inr [65; 66]; inr [65; 66; 67]; inr [65; 66; 67];
     inr [65; 66; 67]; inr [65; 66; 67]; inr [];
     inl Base64Error; inl Base64Error; inl Base64Error; inl Base64Error].
Proof. vm_compute. reflexivity. Qed.

Example split_fields :
  map string_of_list_ascii
      (PyStr.split (PyStr.strip (list_ascii_of_string "  ssh-rsa   AAAA  me@x ")))
  = ["ssh-rsa"; "AAAA"; "me@x"].
Proof. vm_compute. reflexivity. Qed.

Example split_on_separators :
  map string_of_list_ascii
      (PyStr.split
         (list_ascii_of_string
            ("ssh-rsa" ++ String "028" "QUJD" ++ String "160" "me@x")))
  = ["ssh-rsa"; "QUJD"; "me@x"].
Proof. vm_compute. reflexivity. Qed.

Example rsa_key_fingerprint :
  sl_sshkey._get_fingerprint (Some rsa_key) = inr rsa_fingerprint.
Proof. vm_compute. reflexivity. Qed.

(** ** Text lemmas *)

Lemma split_from_lstrip (s : list ascii) :
  PyStr.split_from [] (PyStr.lstrip s) = PyStr.split_from [] s.
Proof.
  induction s as [|c r IH]; simpl; [reflexivity|].
  destruct (PyStr.isspace c) eqn:E; [exact IH|].
  simpl. rewrite E. reflexivity.
Qed.

Lemma lstrip_decompose (s : list ascii) :
  exists ws, s = ws ++ PyStr.lstrip s /\ forallb PyStr.isspace ws = true.
Proof.
  induction s as [|c r [ws [H1 H2]]]; simpl.
  - exists []. split; reflexivity.
  - destruct (PyStr.isspace c) eqn:E.
    + exists (c :: ws). simpl. rewrite E, H2. split; [f_equal; exact H1|reflexivity].
    + exists []. split; reflexivity.
Qed.

Lemma split_from_spaces (ws cur : list ascii) :
  forallb PyStr.isspace ws = true ->
  PyStr.split_from cur ws = PyStr.split_from cur [].
Proof.
  revert cur. induction ws as [|c r IH]; intros cur H; [reflexivity|].
  simpl in H. apply andb_prop in H as [Hc Hr].
  simpl. rewrite Hc. specialize (IH [] Hr). simpl in IH.
  destruct cur; rewrite IH; reflexivity.
Qed.

Lemma split_from_trailing (s ws cur : list ascii) :
  forallb PyStr.isspace ws = true ->
  PyStr.split_from cur (s ++ ws) = PyStr.split_from cur s.
Proof.
  intros H. revert cur. induction s as [|c r IH]; intros cur.
  - simpl. apply split_from_spaces. exact H.
  - simpl. destruct (PyStr.isspace c).
    + destruct cur; rewrite IH; reflexivity.
    + apply IH.
Qed.

Lemma split_rstrip (s : list ascii) :
  PyStr.split (PyStr.rstrip s) = PyStr.split s.
Proof.
  unfold PyStr.split, PyStr.rstrip.
  destruct (lstrip_decompose (rev s)) as [ws [H1 H2]].
  assert (Hs : s = rev (PyStr.lstrip (rev s)) ++ rev ws).
  { rewrite <- rev_app_distr, <- H1, rev_involutive. reflexivity. }
  rewrite Hs at 2. symmetry. apply split_from_trailing.
  rewrite forallb_forall in *. intros x Hx. apply H2, in_rev. exact Hx.
Qed.

(** [strip] before [split] changes nothing: the fields are the same. *)
Lemma split_strip (s : list ascii) :
  PyStr.split (PyStr.strip s) = PyStr.split s.
Proof.
  unfold PyStr.strip. rewrite split_rstrip. apply split_from_lstrip.
Qed.

Lemma evens_hexdigest (d : list Z) :
  PyStr.evens (flat_map Hashlib.hexbyte d)
  = map (fun b => Hashlib.hexchar (Z.shiftr b 4)) d
  /\ PyStr.odds (flat_map Hashlib.hexbyte d)
     = map (fun b => Hashlib.hexchar (Z.land b 15)) d.
Proof.
  induction d as [|b r [IHe IHo]]; [split; reflexivity|].
  split.
  - simpl. f_equal. exact IHe.
  - simpl. destruct (flat_map Hashlib.hexbyte r) eqn:E.
    + destruct r; [reflexivity|discriminate].
    + destruct r as [|b' r']; [discriminate|].
      simpl in E. injection E as <- <-.
      simpl in IHo |- *. f_equal. exact IHo.
Qed.

(** Pairing the even and the odd characters of the hex digest gives back
    the digest's bytes, two digits each. *)
Lemma pairs_of_hexdigest (d : list Z) :
  map (fun ab => String (fst ab) (String (snd ab) ""))
      (combine (PyStr.evens (flat_map Hashlib.hexbyte d))
               (PyStr.odds (flat_map Hashlib.hexbyte d)))
  = map (fun b => string_of_list_ascii (Hashlib.hexbyte b)) d.
Proof.
  destruct (evens_hexdigest d) as [-> ->].
  induction d as [|b r IH]; [reflexivity|].
  simpl. f_equal. exact IH.
Qed.

Lemma md5_length (msg : list Z) : List.length (Hashlib.md5 msg) = 16%nat.
Proof.
  unfold Hashlib.md5.
  destruct (Hashlib.blocks _ _ _) as [[[A B] C] D]. reflexivity.
Qed.

(** ** The fingerprint helper *)

Lemma get_fingerprint_as_spec (text : string) :
  result (sl_sshkey._get_fingerprint (Some text)) = Spec.computeFingerprint text.
Proof.
  unfold sl_sshkey._get_fingerprint, Spec.computeFingerprint,
    Spec.second_field, Spec.decode.
  rewrite split_strip.
  destruct (nth_error _ 1) as [field|]; [|reflexivity].
  destruct (PyStr.encode_ascii field) as [e|encoded]; [reflexivity|].
  destruct (Base64.b64decode encoded) as [e|key]; [reflexivity|].
  simpl. unfold Hashlib.md5_hexdigest, Spec.render.
  rewrite pairs_of_hexdigest. reflexivity.
Qed.

Lemma get_fingerprint_second_field (t1 t2 : string) :
  Spec.second_field t1 = Spec.second_field t2 ->
  sl_sshkey._get_fingerprint (Some t1) = sl_sshkey._get_fingerprint (Some t2).
Proof.
  unfold Spec.second_field, sl_sshkey._get_fingerprint. intros H.
  rewrite !split_strip, H. reflexivity.
Qed.

(** C9: [_get_fingerprint] is the function the specification describes,
    second whitespace-separated field, base64-decoded, MD5, lowercase hex
    byte pairs joined by colons; it fails exactly when that function has
    no value, and two key texts with the same second field have the same
    fingerprint. *)
Theorem get_fingerprint_refines_spec :
  (forall text,
      result (sl_sshkey._get_fingerprint (Some text))
      = Spec.computeFingerprint text)
  /\ (forall t1 t2,
         Spec.second_field t1 = Spec.second_field t2 ->
         sl_sshkey._get_fingerprint (Some t1)
         = sl_sshkey._get_fingerprint (Some t2)).
Proof.
  split; [exact get_fingerprint_as_spec | exact get_fingerprint_second_field].
Qed.

Lemma get_fingerprint_refines_spec_witness :
  Spec.second_field rsa_key
  = Spec.second_field "   ssh-dss  AAAAB3NzaC1yc2EAAAADAQABAAAAgQC7   "
  /\ sl_sshkey._get_fingerprint (Some rsa_key)
     = sl_sshkey._get_fingerprint
         (Some "   ssh-dss  AAAAB3NzaC1yc2EAAAADAQABAAAAgQC7   ").
Proof.
  split; [reflexivity|].
  apply (proj2 get_fingerprint_refines_spec). reflexivity.
Defined.

(** A fingerprint is 16 byte pairs: 47 characters. *)
Lemma render_length (d : list Z) :
  List.length d = 16%nat -> String.length (Spec.render d) = 47%nat.
Proof.
  intros H.
  do 17 (destruct d as [|? d]; try discriminate H).
  reflexivity.
Qed.

Lemma fingerprint_length (text fp : string) :
  sl_sshkey._get_fingerprint (Some text) = inr fp -> String.length fp = 47%nat.
Proof.
  intros H.
  pose proof (get_fingerprint_as_spec text) as R.
  rewrite H in R. simpl in R. unfold Spec.computeFingerprint in R.
  destruct (Spec.second_field text); [|discriminate].
  destruct (Spec.decode l); [discriminate|].
  injection R as ->. apply render_length, md5_length.
Qed.

Example key_k2_fingerprint :
  sl_sshkey._get_fingerprint (Some (key_text key_k2))
  = inr (key_fingerprint key_k2).
Proof. vm_compute. reflexivity. Qed.

(** ** Running the key flows *)

(** The loop of [_create_key] makes no call, and ends the run at the first
    key with the fingerprint or the label. *)
Lemma create_key_loop {W} (p : Provider W) (finger label : string)
      (ks : list Key) (rest : Prog unit) (w : W) :
  run p (for_each ks (fun k =>
           when (key_fingerprint k =? finger)%string
             (if (key_label k =? label)%string
              then exit_json false (key_ k) None
              else exit_json false (key_ k)
                     (Some (sl_sshkey.msg_fingerprint_exists k))) ;;
           when (key_label k =? label)%string
             (fail_json (sl_sshkey.msg_label_exists label))) ;;
         rest) w
  = match first_hit finger label ks with
    | Some o => (o, [], w)
    | None => run p rest w
    end.
Proof.
  induction ks as [|k r IH]; [reflexivity|].
  simpl.
  destruct (key_fingerprint k =? finger)%string.
  - destruct (key_label k =? label)%string; reflexivity.
  - destruct (key_label k =? label)%string; [reflexivity|].
    simpl. exact IH.
Qed.

(** [_create_key] on a key text that has a fingerprint: one listing, then
    either the loop's decision or the creation. *)
Lemma create_key_run {W} (p : Provider W) (module : sl_sshkey.Params)
      (text finger : string) (ks : list Key) (w w1 : W) :
  sl_sshkey.public_key module = Some text ->
  sl_sshkey._get_fingerprint (Some text) = inr finger ->
  p (mgr.list_keys None) w = (Some ks, w1) ->
  run p (sl_sshkey._create_key module) w
  = match first_hit finger (sl_sshkey.label module) ks with
    | Some o => (o, [mgr.list_keys None], w1)
    | None =>
        match p (mgr.add_key (Some text) (sl_sshkey.label module)) w1 with
        | (Some (Some key), w2) =>
            (ExitJson true (key_ key) None,
             [mgr.list_keys None; mgr.add_key (Some text) (sl_sshkey.label module)],
             w2)
        | (Some None, w2) =>
            (FailJson sl_sshkey.msg_not_created,
             [mgr.list_keys None; mgr.add_key (Some text) (sl_sshkey.label module)],
             w2)
        | (None, w2) =>
            (Raised ProviderError,
             [mgr.list_keys None; mgr.add_key (Some text) (sl_sshkey.label module)],
             w2)
        end
    end.
Proof.
  intros Hpk Hfp Hlist.
  unfold sl_sshkey._create_key. rewrite Hpk, Hfp.
  cbn [lift bind call]. cbn [run]. rewrite Hlist.
  cbn [bind]. rewrite create_key_loop.
  destruct (first_hit finger (sl_sshkey.label module) ks) as [o|]; [reflexivity|].
  assert (Ht : truthy (of_opt PStr (Some text)) = true).
  { destruct text as [|c t]; [|reflexivity].
    vm_compute in Hfp. discriminate Hfp. }
  rewrite Ht. cbn [negb when bind run].
  destruct (p (mgr.add_key (Some text) (sl_sshkey.label module)) w1)
    as [[[key|]|] w2]; reflexivity.
Qed.

Lemma get_fingerprint_no_second_field (text : string) :
  (List.length (PyStr.split (list_ascii_of_string text)) < 2)%nat ->
  sl_sshkey._get_fingerprint (Some text) = inl IndexError.
Proof.
  intros H. unfold sl_sshkey._get_fingerprint. rewrite split_strip.
  destruct (nth_error _ 1) eqn:E; [|reflexivity].
  assert (nth_error (PyStr.split (list_ascii_of_string text)) 1 <> None)
    by (rewrite E; discriminate).
  apply nth_error_Some in H0. lia.
Qed.

Lemma get_fingerprint_undecodable (text : string) (field : list ascii) (e : PyExn) :
  Spec.second_field text = Some field ->
  Spec.decode field = inl e ->
  sl_sshkey._get_fingerprint (Some text) = inl e.
Proof.
  unfold Spec.second_field, Spec.decode, sl_sshkey._get_fingerprint.
  intros Hf Hd. rewrite split_strip, Hf.
  destruct (PyStr.encode_ascii field) as [e'|encoded].
  - injection Hd as ->. reflexivity.
  - rewrite Hd. reflexivity.
Qed.

(** When the fingerprint cannot be computed the run ends there, with the
    exception, before the first call. *)
Lemma create_key_raises {W} (p : Provider W) (module : sl_sshkey.Params)
      (e : PyExn) (w : W) :
  sl_sshkey._get_fingerprint (sl_sshkey.public_key module) = inl e ->
  run p (sl_sshkey._create_key module) w = (Raised e, [], w).
Proof.
  intros H. unfold sl_sshkey._create_key. rewrite H. reflexivity.
Qed.

Lemma main_present {W} (p : Provider W) (module : sl_sshkey.Params) (w : W) :
  sl_sshkey.state module = present ->
  run p (sl_sshkey.main true module) w = run p (sl_sshkey._create_key module) w.
Proof. intros H. unfold sl_sshkey.main. rewrite H. reflexivity. Qed.

Lemma main_absent {W} (p : Provider W) (module : sl_sshkey.Params) (w : W) :
  sl_sshkey.state module = absent ->
  run p (sl_sshkey.main true module) w = run p (sl_sshkey._delete_key module) w.
Proof. intros H. unfold sl_sshkey.main. rewrite H. reflexivity. Qed.

(** In [first_hit] the position decides: keys that match neither way are
    passed over, and the first that matches either way ends the scan. *)
Lemma first_hit_skip (finger label : string) (before rest : list Key) :
  (forall k, In k before ->
             (key_fingerprint k =? finger)%string = false
             /\ (key_label k =? label)%string = false) ->
  first_hit finger label (before ++ rest) = first_hit finger label rest.
Proof.
  induction before as [|k r IH]; intros H; [reflexivity|].
  simpl. destruct (H k (or_introl eq_refl)) as [-> ->].
  apply IH. intros k' Hk'. apply H. right. exact Hk'.
Qed.

(** The position of the keys in the listing decides between the two
    answers: a key holding the label, listed before the key with the
    fingerprint, fails the request whatever follows it. *)
Lemma label_listed_first_fails {W} (p : Provider W) (module : sl_sshkey.Params)
      (text finger : string) (k : Key) (after : list Key) (w w1 : W) :
  sl_sshkey.state module = present ->
  sl_sshkey.public_key module = Some text ->
  sl_sshkey._get_fingerprint (Some text) = inr finger ->
  p (mgr.list_keys None) w = (Some (k :: after), w1) ->
  key_label k = sl_sshkey.label module ->
  key_fingerprint k <> finger ->
  run p (sl_sshkey.main true module) w
  = (FailJson (sl_sshkey.msg_label_exists (sl_sshkey.label module)),
     [mgr.list_keys None], w1).
Proof.
  intros Hs Hpk Hfp Hl Hlab Hfin.
  rewrite (main_present p module w Hs).
  rewrite (create_key_run p module text finger (k :: after) w w1 Hpk Hfp Hl).
  simpl. apply String.eqb_neq in Hfin. rewrite Hfin.
  rewrite Hlab, String.eqb_refl. reflexivity.
Qed.

(** A key with the fingerprint is returned when no key listed before it
    has the fingerprint or the label, whatever follows it. *)
Lemma fingerprint_listed_first_wins {W} (p : Provider W)
      (module : sl_sshkey.Params) (text finger : string)
      (before : list Key) (k : Key) (after : list Key) (w w1 : W) :
  sl_sshkey.state module = present ->
  sl_sshkey.public_key module = Some text ->
  sl_sshkey._get_fingerprint (Some text) = inr finger ->
  p (mgr.list_keys None) w = (Some (before ++ k :: after), w1) ->
  (forall k', In k' before ->
              (key_fingerprint k' =? finger)%string = false
              /\ (key_label k' =? sl_sshkey.label module)%string = false) ->
  key_fingerprint k = finger ->
  run p (sl_sshkey.main true module) w
  = (ExitJson false (key_ k)
       (if (key_label k =? sl_sshkey.label module)%string then None
        else Some (sl_sshkey.msg_fingerprint_exists k)),
     [mgr.list_keys None], w1).
Proof.
  intros Hs Hpk Hfp Hl Hbefore Hk.
  rewrite (main_present p module w Hs).
  rewrite (create_key_run p module text finger _ w w1 Hpk Hfp Hl).
  rewrite (first_hit_skip finger _ before (k :: after) Hbefore).
  simpl. rewrite Hk, String.eqb_refl. reflexivity.
Qed.

(** C1: on an account that lists a key labelled k2 before the key that
    has the requested fingerprint, a request for label k2 fails with the
    label message although a fingerprint match exists; with the same two
    keys listed the other way round the existing key is returned. *)
Theorem fingerprint_match_depends_on_listing_order :
  run account
      (sl_sshkey.main true (key_request present "k2" (Some rsa_key)))
      (account_of_keys [key_k2; key_k1])
  = (FailJson (sl_sshkey.msg_label_exists "k2"),
     [mgr.list_keys None], account_of_keys [key_k2; key_k1])
  /\ run account
         (sl_sshkey.main true (key_request present "k2" (Some rsa_key)))
         (account_of_keys [key_k1; key_k2])
     = (ExitJson false (key_ key_k1)
          (Some (sl_sshkey.msg_fingerprint_exists key_k1)),
        [mgr.list_keys None], account_of_keys [key_k1; key_k2]).
Proof. split; vm_compute; reflexivity. Qed.

(** C3: with no public key, or an empty one, a present request ends in an
    uncaught exception raised while computing the fingerprint, before any
    call; the message for a missing key is not what comes out. *)
Theorem missing_key_raises {W} (p : Provider W) (module : sl_sshkey.Params) (w : W) :
  sl_sshkey.state module = present ->
  (sl_sshkey.public_key module = None ->
   run p (sl_sshkey.main true module) w = (Raised AttributeError, [], w))
  /\ (sl_sshkey.public_key module = Some "" ->
      run p (sl_sshkey.main true module) w = (Raised IndexError, [], w)).
Proof.
  intros Hs. rewrite (main_present p module w Hs).
  split; intros Hpk; apply create_key_raises; rewrite Hpk; reflexivity.
Qed.

Lemma missing_key_raises_witness :
  run account (sl_sshkey.main true (key_request present "k1" None)) empty_account
  = (Raised AttributeError, [], empty_account)
  /\ run account (sl_sshkey.main true (key_request present "k1" (Some ""))) empty_account
     = (Raised IndexError, [], empty_account).
Proof.
  split.
  - apply (proj1 (missing_key_raises account (key_request present "k1" None)
                    empty_account eq_refl)).
    reflexivity.
  - apply (proj2 (missing_key_raises account (key_request present "k1" (Some ""))
                    empty_account eq_refl)).
    reflexivity.
Defined.

(** The check [if not public_key] of [_create_key] is never the one that
    ends a run: a key text that has a fingerprint is not empty. *)
Lemma key_required_never_reported {W} (p : Provider W)
      (module : sl_sshkey.Params) (w : W) :
  outcome (run p (sl_sshkey._create_key module) w)
  <> FailJson sl_sshkey.msg_key_required.
Proof.
  destruct (sl_sshkey._get_fingerprint (sl_sshkey.public_key module)) as [e|finger] eqn:Hfp.
  - rewrite (create_key_raises p module e w Hfp). discriminate.
  - destruct (sl_sshkey.public_key module) as [text|] eqn:Hpk; [|discriminate Hfp].
    destruct (p (mgr.list_keys None) w) as [[ks|] w1] eqn:Hl.
    + rewrite (create_key_run p module text finger ks w w1 Hpk Hfp Hl).
      assert (Hhit : forall o, first_hit finger (sl_sshkey.label module) ks = Some o ->
                               o <> FailJson sl_sshkey.msg_key_required).
      { clear. induction ks as [|k r IH]; intros o; simpl; [discriminate|].
        destruct (key_fingerprint k =? finger)%string.
        - intros [= <-]. discriminate.
        - destruct (key_label k =? sl_sshkey.label module)%string; [|apply IH].
          intros [= <-]. unfold sl_sshkey.msg_label_exists, sl_sshkey.msg_key_required.
          simpl. discriminate. }
      destruct (first_hit finger (sl_sshkey.label module) ks) as [o|].
      * apply Hhit. reflexivity.
      * destruct (p (mgr.add_key (Some text) (sl_sshkey.label module)) w1)
          as [[[key|]|] w2]; discriminate.
    + unfold sl_sshkey._create_key. rewrite Hpk, Hfp.
      cbn [lift bind call run]. rewrite Hl. discriminate.
Qed.

(** C6, as the specification states it, fails: a key text of one field,
    which is not empty, does not end the run in a reported failure. *)
Lemma one_field_key_is_not_reported :
  ~ (forall text : string,
        (List.length (PyStr.split (list_ascii_of_string text)) < 2)%nat ->
        exists msg,
          outcome (run blank
                       (sl_sshkey.main true (key_request present "k1" (Some text)))
                       tt)
          = FailJson msg).
Proof.
  intros H. destruct (H "ssh-rsa") as [msg Hmsg].
  - vm_compute. lia.
  - vm_compute in Hmsg. discriminate Hmsg.
Qed.

(** C6, amended: a key text that is not empty and has fewer than two
    whitespace-separated fields ends a present request with an uncaught
    IndexError, and one whose second field the decoder rejects ends it
    with the decoder's exception, in both cases before any call and with
    no failure reported through [fail_json].  The empty key text, for
    which the module has a check and a message of its own, is left out. *)
Theorem malformed_key_raises {W} (p : Provider W) (module : sl_sshkey.Params)
        (text : string) (w : W) :
  sl_sshkey.state module = present ->
  sl_sshkey.public_key module = Some text ->
  truthy (PStr text) = true ->
  ((List.length (PyStr.split (list_ascii_of_string text)) < 2)%nat ->
   run p (sl_sshkey.main true module) w = (Raised IndexError, [], w))
  /\ (forall field e,
         Spec.second_field text = Some field ->
         Spec.decode field = inl e ->
         run p (sl_sshkey.main true module) w = (Raised e, [], w)).
Proof.
  intros Hs Hpk _. rewrite (main_present p module w Hs). split.
  - intros H. apply create_key_raises. rewrite Hpk.
    apply get_fingerprint_no_second_field. exact H.
  - intros field e Hf Hd. apply create_key_raises. rewrite Hpk.
    apply (get_fingerprint_undecodable text field e Hf Hd).
Qed.

Lemma malformed_key_raises_witness :
  run account (sl_sshkey.main true (key_request present "k1" (Some "ssh-rsa")))
      empty_account
  = (Raised IndexError, [], empty_account)
  /\ run account (sl_sshkey.main true (key_request present "k1" (Some "ssh-rsa QQ")))
         empty_account
     = (Raised Base64Error, [], empty_account).
Proof.
  split.
  - apply (proj1 (malformed_key_raises account
                    (key_request present "k1" (Some "ssh-rsa")) "ssh-rsa"
                    empty_account eq_refl eq_refl eq_refl)).
    vm_compute. lia.
  - apply (proj2 (malformed_key_raises account
                    (key_request present "k1" (Some "ssh-rsa QQ")) "ssh-rsa QQ"
                    empty_account eq_refl eq_refl eq_refl)
             (list_ascii_of_string "QQ") Base64Error).
    + reflexivity.
    + reflexivity.
Defined.

(** The decoder skips what is outside the alphabet, so a second field
    made of such characters only has a fingerprint: that of no bytes. *)
Example fingerprint_of_no_base64 :
  sl_sshkey._get_fingerprint (Some "ssh-rsa !!!!")
  = inr "d4:1d:8c:d9:8f:00:b2:04:e9:80:09:98:ec:f8:42:7e".
Proof. vm_compute. reflexivity. Qed.

(** C7: an absent request lists the keys with the label; none listed ends
    with changed=false and no delete, one listed is deleted by its id and
    the run ends with changed=true, two or more end with the ambiguity
    message and no delete. *)
Theorem delete_key_by_count {W} (p : Provider W) (module : sl_sshkey.Params)
        (ks : list Key) (w w1 : W) :
  sl_sshkey.state module = absent ->
  p (mgr.list_keys (Some (sl_sshkey.label module))) w = (Some ks, w1) ->
  match ks with
  | [] =>
      run p (sl_sshkey.main true module) w
      = (ExitJson false NoPayload None,
         [mgr.list_keys (Some (sl_sshkey.label module))], w1)
  | [k] =>
      forall w2,
        p (mgr.delete_key (key_id k)) w1 = (Some tt, w2) ->
        run p (sl_sshkey.main true module) w
        = (ExitJson true NoPayload None,
           [mgr.list_keys (Some (sl_sshkey.label module));
            mgr.delete_key (key_id k)], w2)
  | _ :: _ :: _ =>
      run p (sl_sshkey.main true module) w
      = (FailJson (sl_sshkey.msg_ambiguous (sl_sshkey.label module)),
         [mgr.list_keys (Some (sl_sshkey.label module))], w1)
  end.
Proof.
  intros Hs Hl. rewrite (main_absent p module w Hs).
  unfold sl_sshkey._delete_key. cbn [call bind run]. rewrite Hl.
  destruct ks as [|k [|k' r]].
  - reflexivity.
  - intros w2 Hd. cbn. rewrite Hd. reflexivity.
  - assert (E : (1 <? Z.of_nat (List.length (k :: k' :: r))) = true).
    { apply Z.ltb_lt. simpl List.length. lia. }
    rewrite E. reflexivity.
Qed.

Lemma delete_key_by_count_witness :
  run account (sl_sshkey.main true (key_request absent "k3" None))
      (account_of_keys [key_k2; key_k1])
  = (ExitJson false NoPayload None, [mgr.list_keys (Some "k3")],
     account_of_keys [key_k2; key_k1])
  /\ run account (sl_sshkey.main true (key_request absent "k1" None))
         (account_of_keys [key_k2; key_k1])
     = (ExitJson true NoPayload None,
        [mgr.list_keys (Some "k1"); mgr.delete_key 2],
        account_of_keys [key_k2])
  /\ run account (sl_sshkey.main true (key_request absent "k1" None))
         (account_of_keys [key_k1; key_k2; key_k1_again])
     = (FailJson (sl_sshkey.msg_ambiguous "k1"), [mgr.list_keys (Some "k1")],
        account_of_keys [key_k1; key_k2; key_k1_again]).
Proof.
  split; [|split].
  - exact (delete_key_by_count account (key_request absent "k3" None) []
             (account_of_keys [key_k2; key_k1]) _ eq_refl eq_refl).
  - exact (delete_key_by_count account (key_request absent "k1" None) [key_k1]
             (account_of_keys [key_k2; key_k1]) _ eq_refl eq_refl
             (account_of_keys [key_k2]) eq_refl).
  - exact (delete_key_by_count account (key_request absent "k1" None)
             [key_k1; key_k1_again]
             (account_of_keys [key_k1; key_k2; key_k1_again]) _ eq_refl eq_refl).
Defined.

(** ** Running the server flows *)

Lemma server_main_present {W} (p : Provider W) (module : sl_vs_server.Params)
      (w : W) :
  sl_vs_server.state module = present ->
  run p (sl_vs_server.main true module) w
  = match p (mgr.list_instances (sl_vs_server.hostname module)
                                (sl_vs_server.domain module) None) w with
    | (None, w1) =>
        (Raised ProviderError,
         [mgr.list_instances (sl_vs_server.hostname module)
                             (sl_vs_server.domain module) None], w1)
    | (Some found, w1) =>
        let r := run p (match found with
                        | first :: _ =>
                            inst <- call (mgr.get_instance (inst_id first)) ;;
                            exit_json false (server_ inst) None
                        | [] => sl_vs_server._create_server module
                        end) w1 in
        (outcome r,
         mgr.list_instances (sl_vs_server.hostname module)
                            (sl_vs_server.domain module) None :: calls r,
         world r)
    end.
Proof.
  intros Hs. unfold sl_vs_server.main. rewrite Hs.
  cbn [negb when bind call run].
  destruct (p _ w) as [[found|] w1]; [|reflexivity].
  cbn [bind].
  match goal with |- context [run p ?q w1] => destruct (run p q w1) as [[o cs] w2] end.
  reflexivity.
Qed.

(** With every basic specification given, the checks of [_create_server]
    come down to the one on [image_id] and [os_code]. *)
Lemma order_specs_checked (module : sl_vs_server.Params) :
  forallb (fun kv => truthy (snd kv)) (sl_vs_server.basic_specs module) = true ->
  sl_vs_server.order_specs module
  = let image_id := of_opt PInt (sl_vs_server.image_id module) in
    let os_code := of_opt PStr (sl_vs_server.os_code module) in
    if truthy image_id && truthy os_code
    then Stop (FailJson sl_vs_server.msg_both)
    else if truthy image_id || truthy os_code
    then Ret (sl_vs_server.add_optional module sl_vs_server.optional_params
                (setitem
                   (setitem
                      (setitem (sl_vs_server.basic_specs module)
                               (if truthy image_id then "image_id" else "os_code")
                               (if truthy image_id then image_id else os_code))
                      "local_disk" (PBool (sl_vs_server.local_disk module)))
                   "dedicated" (PBool (sl_vs_server.dedicated module))))
    else Stop (FailJson sl_vs_server.msg_neither).
Proof.
  intros H. unfold sl_vs_server.order_specs.
  cbn [sl_vs_server.basic_specs forallb snd] in H.
  repeat (apply andb_prop in H; destruct H as [?H H]).
  cbn [sl_vs_server.basic_specs dict_keys map fst for_each getitem String.eqb
       Ascii.eqb Bool.eqb].
  rewrite H0, H1, H2, H3, H4, H5.
  cbn [negb when bind].
  destruct (truthy (of_opt PInt (sl_vs_server.image_id module)));
    destruct (truthy (of_opt PStr (sl_vs_server.os_code module)));
    reflexivity.
Qed.

(** What [_create_server] does once the specifications are accepted:
    order, list again, take the first one listed. *)
Lemma create_server_run {W} (p : Provider W) (module : sl_vs_server.Params)
      (specs : dict) (w w1 : W) :
  sl_vs_server.order_specs module = Ret specs ->
  p (mgr.create_instance specs) w = (Some tt, w1) ->
  run p (sl_vs_server._create_server module) w
  = match p (mgr.list_instances (sl_vs_server.hostname module)
                                (sl_vs_server.domain module) None) w1 with
    | (None, w2) =>
        (Raised ProviderError,
         [mgr.create_instance specs;
          mgr.list_instances (sl_vs_server.hostname module)
                             (sl_vs_server.domain module) None], w2)
    | (Some [], w2) =>
        (Raised IndexError,
         [mgr.create_instance specs;
          mgr.list_instances (sl_vs_server.hostname module)
                             (sl_vs_server.domain module) None], w2)
    | (Some (first :: _), w2) =>
        let r := run p (A := unit)
                       (when (sl_vs_server.wait_for_ready module)
                          (is_ready <- call (mgr.wait_for_ready (inst_id first) 900) ;;
                           if is_ready : bool
                           then exit_json true (server_ first) None
                           else fail_json sl_vs_server.msg_timeout) ;;
                        inst <- call (mgr.get_instance (inst_id first)) ;;
                        exit_json true (server_ inst) None) w2 in
        (outcome r,
         mgr.create_instance specs
         :: mgr.list_instances (sl_vs_server.hostname module)
                               (sl_vs_server.domain module) None
         :: calls r,
         world r)
    end.
Proof.
  intros Hspecs Hc. unfold sl_vs_server._create_server. rewrite Hspecs.
  cbn [bind call run]. rewrite Hc. cbn [bind call run].
  destruct (p (mgr.list_instances _ _ None) w1) as [[[|first rest]|] w2];
    [reflexivity| |reflexivity].
  cbn [bind].
  match goal with |- context [run p ?q w2] => destruct (run p q w2) as [[o cs] w3] end.
  reflexivity.
Qed.

(** C2: a present request for which the provider lists a server ends with
    changed=false and the record fetched for the first one listed, after
    these two calls only, whatever the other parameters are; so a second
    run, on the world the first run left, ends with changed=false when
    the server is listed there. *)
Theorem present_existing_server_unchanged {W} (p : Provider W)
        (module : sl_vs_server.Params) :
  sl_vs_server.state module = present ->
  (forall (w w1 w2 : W) (first : Instance) (rest : list Instance) (full : Instance),
      p (mgr.list_instances (sl_vs_server.hostname module)
                            (sl_vs_server.domain module) None) w
      = (Some (first :: rest), w1) ->
      p (mgr.get_instance (inst_id first)) w1 = (Some full, w2) ->
      run p (sl_vs_server.main true module) w
      = (ExitJson false (server_ full) None,
         [mgr.list_instances (sl_vs_server.hostname module)
                             (sl_vs_server.domain module) None;
          mgr.get_instance (inst_id first)],
         w2))
  /\ (forall (w0 w1 w2 : W) (first : Instance) (rest : list Instance)
             (full : Instance),
         p (mgr.list_instances (sl_vs_server.hostname module)
                               (sl_vs_server.domain module) None)
           (world (run p (sl_vs_server.main true module) w0))
         = (Some (first :: rest), w1) ->
         p (mgr.get_instance (inst_id first)) w1 = (Some full, w2) ->
         outcome (run p (sl_vs_server.main true module)
                      (world (run p (sl_vs_server.main true module) w0)))
         = ExitJson false (server_ full) None).
Proof.
  intros Hs.
  assert (Hfirst : forall (w w1 w2 : W) first rest full,
             p (mgr.list_instances (sl_vs_server.hostname module)
                                   (sl_vs_server.domain module) None) w
             = (Some (first :: rest), w1) ->
             p (mgr.get_instance (inst_id first)) w1 = (Some full, w2) ->
             run p (sl_vs_server.main true module) w
             = (ExitJson false (server_ full) None,
                [mgr.list_instances (sl_vs_server.hostname module)
                                    (sl_vs_server.domain module) None;
                 mgr.get_instance (inst_id first)],
                w2)).
  { intros w w1 w2 first rest full Hl Hg.
    rewrite (server_main_present p module w Hs), Hl.
    cbn [call bind run]. rewrite Hg. reflexivity. }
  split; [exact Hfirst|].
  intros w0 w1 w2 first rest full Hl Hg.
  rewrite (Hfirst _ w1 w2 first rest full Hl Hg). reflexivity.
Qed.

Lemma present_existing_server_unchanged_witness :
  run account (sl_vs_server.main true (vm1_request true)) empty_account
  = (ExitJson true (server_ vm1) None,
     [mgr.list_instances "vm1" "d.com" None; mgr.create_instance vm1_specs;
      mgr.list_instances "vm1" "d.com" None; mgr.wait_for_ready 1 900],
     account_with_vm1)
  /\ outcome (run account (sl_vs_server.main true (vm1_request true))
                  (world (run account (sl_vs_server.main true (vm1_request true))
                              empty_account)))
     = ExitJson false (server_ vm1) None.
Proof.
  split; [reflexivity|].
  apply (proj2 (present_existing_server_unchanged account (vm1_request true)
                  eq_refl)
           empty_account account_with_vm1 account_with_vm1 vm1 [] vm1).
  - reflexivity.
  - reflexivity.
Defined.

(** The other parameters are not looked at: a request that has both
    [image_id] and [os_code] and no datacenter gets the listed server. *)
Example existing_server_skips_the_checks :
  run account
      (sl_vs_server.main true
         (server_request present "vm1" "d.com" None
            (Some "UBUNTU_LATEST") (Some 123) true))
      account_with_vm1
  = (ExitJson false (server_ vm1) None,
     [mgr.list_instances "vm1" "d.com" None; mgr.get_instance 1],
     account_with_vm1).
Proof. vm_compute. reflexivity. Qed.

(** C5, as the specification states it, fails: the request of the
    scenario, completed with a datacenter, does end with the conflict
    message, but after the listing call. *)
Lemma image_os_conflict_is_after_listing :
  ~ (forall module : sl_vs_server.Params,
        sl_vs_server.state module = present ->
        truthy (of_opt PInt (sl_vs_server.image_id module))
        = truthy (of_opt PStr (sl_vs_server.os_code module)) ->
        forall (W : Type) (p : Provider W) (w : W),
          (outcome (run p (sl_vs_server.main true module) w)
           = FailJson sl_vs_server.msg_both
           \/ outcome (run p (sl_vs_server.main true module) w)
              = FailJson sl_vs_server.msg_neither)
          /\ calls (run p (sl_vs_server.main true module) w) = []).
Proof.
  intros H.
  destruct (H (server_request present "vm1" "d.com" (Some "dal05")
                 (Some "UBUNTU_LATEST") (Some 123) true)
              eq_refl eq_refl Account account empty_account) as [_ Hcalls].
  vm_compute in Hcalls. discriminate Hcalls.
Qed.

(** C5, amended: when the provider lists no server for the hostname and
    domain and every basic specification has a value Python counts as
    true, a present request in which [image_id] and [os_code] both have
    such a value, or neither has, ends with the conflict message after
    the listing call and no other call.  An [image_id] of 0 and an empty
    [os_code] count as not given. *)
Theorem image_os_conflict_after_listing {W} (p : Provider W)
        (module : sl_vs_server.Params) (w w1 : W) :
  sl_vs_server.state module = present ->
  p (mgr.list_instances (sl_vs_server.hostname module)
                        (sl_vs_server.domain module) None) w
  = (Some [], w1) ->
  forallb (fun kv => truthy (snd kv)) (sl_vs_server.basic_specs module) = true ->
  (truthy (of_opt PInt (sl_vs_server.image_id module)) = true ->
   truthy (of_opt PStr (sl_vs_server.os_code module)) = true ->
   run p (sl_vs_server.main true module) w
   = (FailJson sl_vs_server.msg_both,
      [mgr.list_instances (sl_vs_server.hostname module)
                          (sl_vs_server.domain module) None], w1))
  /\ (truthy (of_opt PInt (sl_vs_server.image_id module)) = false ->
      truthy (of_opt PStr (sl_vs_server.os_code module)) = false ->
      run p (sl_vs_server.main true module) w
      = (FailJson sl_vs_server.msg_neither,
         [mgr.list_instances (sl_vs_server.hostname module)
                             (sl_vs_server.domain module) None], w1)).
Proof.
  intros Hs Hl Hbasic.
  rewrite (server_main_present p module w Hs), Hl.
  unfold sl_vs_server._create_server.
  rewrite (order_specs_checked module Hbasic). cbv zeta.
  split; intros Hi Ho; rewrite Hi, Ho; reflexivity.
Qed.

Lemma image_os_conflict_after_listing_witness :
  run account
      (sl_vs_server.main true
         (server_request present "vm1" "d.com" (Some "dal05")
            (Some "UBUNTU_LATEST") (Some 123) true))
      empty_account
  = (FailJson sl_vs_server.msg_both,
     [mgr.list_instances "vm1" "d.com" None], empty_account)
  /\ run account
         (sl_vs_server.main true
            (server_request present "vm1" "d.com" (Some "dal05") None None true))
         empty_account
     = (FailJson sl_vs_server.msg_neither,
        [mgr.list_instances "vm1" "d.com" None], empty_account).
Proof.
  split.
  - apply (proj1 (image_os_conflict_after_listing account
                    (server_request present "vm1" "d.com" (Some "dal05")
                       (Some "UBUNTU_LATEST") (Some 123) true)
                    empty_account empty_account eq_refl eq_refl eq_refl));
      reflexivity.
  - apply (proj2 (image_os_conflict_after_listing account
                    (server_request present "vm1" "d.com" (Some "dal05")
                       None None true)
                    empty_account empty_account eq_refl eq_refl eq_refl));
      reflexivity.
Defined.

(** Monthly billing is [hourly=False], which the loop over the basic
    specifications takes for a missing value. *)
Example monthly_billing_is_refused :
  run account
      (sl_vs_server.main true
         {| sl_vs_server.username := "user"; sl_vs_server.api_key := "secret";
            sl_vs_server.hostname := "vm1"; sl_vs_server.domain := "d.com";
            sl_vs_server.state := present;
            sl_vs_server.cpus := 8; sl_vs_server.memory := 16;
            sl_vs_server.hourly := false; sl_vs_server.local_disk := true;
            sl_vs_server.datacenter := Some "dal05";
            sl_vs_server.os_code := Some "UBUNTU_LATEST";
            sl_vs_server.image_id := None; sl_vs_server.dedicated := false;
            sl_vs_server.public_vlan := None; sl_vs_server.private_vlan := None;
            sl_vs_server.disks := None; sl_vs_server.post_uri := None;
            sl_vs_server.private := None; sl_vs_server.ssh_keys := None;
            sl_vs_server.nic_speed := None; sl_vs_server.tags := None;
            sl_vs_server.public_ip := None; sl_vs_server.private_ip := None;
            sl_vs_server.wait_for_ready := true |})
      empty_account
  = (FailJson "hourly must be specified to order instance",
     [mgr.list_instances "vm1" "d.com" None], empty_account).
Proof. vm_compute. reflexivity. Qed.

(** An [image_id] of 0 is no value: with an [os_code] beside it the
    server is ordered by the OS code. *)
Example image_id_zero_is_not_given :
  run account
      (sl_vs_server.main true
         (server_request present "vm1" "d.com" (Some "dal05")
            (Some "UBUNTU_LATEST") (Some 0) true))
      empty_account
  = (ExitJson true (server_ vm1) None,
     [mgr.list_instances "vm1" "d.com" None; mgr.create_instance vm1_specs;
      mgr.list_instances "vm1" "d.com" None; mgr.wait_for_ready 1 900],
     account_with_vm1).
Proof. vm_compute. reflexivity. Qed.

(** The scenario as the specification gives it, with no datacenter: the
    listing call is made and the failure names the datacenter. *)
Example scenario_both_without_datacenter :
  run account
      (sl_vs_server.main true
         (server_request present "vm1" "d.com" None
            (Some "UBUNTU_LATEST") (Some 123) true))
      empty_account
  = (FailJson "datacenter must be specified to order instance",
     [mgr.list_instances "vm1" "d.com" None], empty_account).
Proof. vm_compute. reflexivity. Qed.

(** C4, as the specification states it, fails: with [wait_for_ready]
    false the run that ends with changed=true does call [get_instance]. *)
Lemma create_without_wait_calls_get_instance :
  ~ (forall (module : sl_vs_server.Params) (W : Type) (p : Provider W) (w : W),
        sl_vs_server.state module = present ->
        sl_vs_server.wait_for_ready module = false ->
        forall payload msg,
          outcome (run p (sl_vs_server.main true module) w)
          = ExitJson true payload msg ->
          forall id,
            ~ In (mgr.get_instance id)
                 (calls (run p (sl_vs_server.main true module) w))).
Proof.
  intros H.
  apply (H (vm1_request false) Account account empty_account eq_refl eq_refl
           (server_ vm1) None eq_refl 1).
  vm_compute. right. right. right. left. reflexivity.
Qed.

(** C4, amended: with [wait_for_ready] false, a present request that
    reaches the order, whose order is accepted and whose server is listed
    afterwards, ends with changed=true and the record that [get_instance]
    returns for the first server listed. *)
Theorem create_without_wait_fetches_record {W} (p : Provider W)
        (module : sl_vs_server.Params) (specs : dict)
        (first : Instance) (rest : list Instance) (full : Instance)
        (w w1 w2 w3 w4 : W) :
  sl_vs_server.state module = present ->
  sl_vs_server.wait_for_ready module = false ->
  p (mgr.list_instances (sl_vs_server.hostname module)
                        (sl_vs_server.domain module) None) w
  = (Some [], w1) ->
  sl_vs_server.order_specs module = Ret specs ->
  p (mgr.create_instance specs) w1 = (Some tt, w2) ->
  p (mgr.list_instances (sl_vs_server.hostname module)
                        (sl_vs_server.domain module) None) w2
  = (Some (first :: rest), w3) ->
  p (mgr.get_instance (inst_id first)) w3 = (Some full, w4) ->
  run p (sl_vs_server.main true module) w
  = (ExitJson true (server_ full) None,
     [mgr.list_instances (sl_vs_server.hostname module)
                         (sl_vs_server.domain module) None;
      mgr.create_instance specs;
      mgr.list_instances (sl_vs_server.hostname module)
                         (sl_vs_server.domain module) None;
      mgr.get_instance (inst_id first)],
     w4).
Proof.
  intros Hs Hwait Hl Hspecs Hc Hl2 Hg.
  rewrite (server_main_present p module w Hs), Hl.
  cbv zeta.
  rewrite (create_server_run p module specs w1 w2 Hspecs Hc), Hl2, Hwait.
  cbn [when bind call run]. rewrite Hg. reflexivity.
Qed.

(** With [wait_for_ready] true it is the listed record that comes back
    when the server gets ready: [get_instance] is not called. *)
Lemma create_with_wait_returns_listed {W} (p : Provider W)
      (module : sl_vs_server.Params) (specs : dict)
      (first : Instance) (rest : list Instance) (is_ready : bool)
      (w w1 w2 w3 w4 : W) :
  sl_vs_server.state module = present ->
  sl_vs_server.wait_for_ready module = true ->
  p (mgr.list_instances (sl_vs_server.hostname module)
                        (sl_vs_server.domain module) None) w
  = (Some [], w1) ->
  sl_vs_server.order_specs module = Ret specs ->
  p (mgr.create_instance specs) w1 = (Some tt, w2) ->
  p (mgr.list_instances (sl_vs_server.hostname module)
                        (sl_vs_server.domain module) None) w2
  = (Some (first :: rest), w3) ->
  p (mgr.wait_for_ready (inst_id first) 900) w3 = (Some is_ready, w4) ->
  run p (sl_vs_server.main true module) w
  = ((if is_ready then ExitJson true (server_ first) None
      else FailJson sl_vs_server.msg_timeout),
     [mgr.list_instances (sl_vs_server.hostname module)
                         (sl_vs_server.domain module) None;
      mgr.create_instance specs;
      mgr.list_instances (sl_vs_server.hostname module)
                         (sl_vs_server.domain module) None;
      mgr.wait_for_ready (inst_id first) 900],
     w4).
Proof.
  intros Hs Hwait Hl Hspecs Hc Hl2 Hr.
  rewrite (server_main_present p module w Hs), Hl.
  cbv zeta.
  rewrite (create_server_run p module specs w1 w2 Hspecs Hc), Hl2, Hwait.
  cbn [when bind call run]. rewrite Hr.
  destruct is_ready; reflexivity.
Qed.

Lemma create_without_wait_fetches_record_witness :
  run account (sl_vs_server.main true (vm1_request false)) empty_account
  = (ExitJson true (server_ vm1) None,
     [mgr.list_instances "vm1" "d.com" None; mgr.create_instance vm1_specs;
      mgr.list_instances "vm1" "d.com" None; mgr.get_instance 1],
     account_with_vm1).
Proof.
  apply (create_without_wait_fetches_record account (vm1_request false)
           vm1_specs vm1 [] vm1
           empty_account empty_account account_with_vm1 account_with_vm1
           account_with_vm1);
    reflexivity.
Defined.

(** C10: after the order, [_create_server] lists the servers again and
    indexes the listing at 0: an empty listing ends the run with an
    uncaught IndexError, and one that is not empty sends the next call to
    the id of its first server. *)
Theorem create_requery_takes_first {W} (p : Provider W)
        (module : sl_vs_server.Params) (specs : dict) (w w1 w2 w3 : W) :
  sl_vs_server.state module = present ->
  p (mgr.list_instances (sl_vs_server.hostname module)
                        (sl_vs_server.domain module) None) w
  = (Some [], w1) ->
  sl_vs_server.order_specs module = Ret specs ->
  p (mgr.create_instance specs) w1 = (Some tt, w2) ->
  (p (mgr.list_instances (sl_vs_server.hostname module)
                         (sl_vs_server.domain module) None) w2
   = (Some [], w3) ->
   run p (sl_vs_server.main true module) w
   = (Raised IndexError,
      [mgr.list_instances (sl_vs_server.hostname module)
                          (sl_vs_server.domain module) None;
       mgr.create_instance specs;
       mgr.list_instances (sl_vs_server.hostname module)
                          (sl_vs_server.domain module) None],
      w3))
  /\ (forall first rest,
         p (mgr.list_instances (sl_vs_server.hostname module)
                               (sl_vs_server.domain module) None) w2
         = (Some (first :: rest), w3) ->
         exists later,
           calls (run p (sl_vs_server.main true module) w)
           = [mgr.list_instances (sl_vs_server.hostname module)
                                 (sl_vs_server.domain module) None;
              mgr.create_instance specs;
              mgr.list_instances (sl_vs_server.hostname module)
                                 (sl_vs_server.domain module) None]
             ++ (if sl_vs_server.wait_for_ready module
                 then mgr.wait_for_ready (inst_id first) 900
                 else mgr.get_instance (inst_id first)) :: later).
Proof.
  intros Hs Hl Hspecs Hc.
  rewrite (server_main_present p module w Hs), Hl. cbv zeta.
  rewrite (create_server_run p module specs w1 w2 Hspecs Hc).
  split.
  - intros Hl2. rewrite Hl2. reflexivity.
  - intros first rest Hl2. rewrite Hl2.
    destruct (sl_vs_server.wait_for_ready module);
      cbn [when bind call run].
    + destruct (p (mgr.wait_for_ready (inst_id first) 900) w3) as [[[|]|] w4];
        cbn; eexists; reflexivity.
    + destruct (p (mgr.get_instance (inst_id first)) w3) as [[full|] w4];
        cbn; eexists; reflexivity.
Qed.

Lemma create_requery_takes_first_witness :
  run blank (sl_vs_server.main true (vm1_request true)) tt
  = (Raised IndexError,
     [mgr.list_instances "vm1" "d.com" None; mgr.create_instance vm1_specs;
      mgr.list_instances "vm1" "d.com" None],
     tt)
  /\ exists later,
       calls (run account (sl_vs_server.main true (vm1_request true))
                  empty_account)
       = [mgr.list_instances "vm1" "d.com" None; mgr.create_instance vm1_specs;
          mgr.list_instances "vm1" "d.com" None]
         ++ mgr.wait_for_ready 1 900 :: later.
Proof.
  split.
  - apply (proj1 (create_requery_takes_first blank (vm1_request true)
                    vm1_specs tt tt tt tt eq_refl eq_refl eq_refl eq_refl)).
    reflexivity.
  - apply (proj2 (create_requery_takes_first account (vm1_request true)
                    vm1_specs empty_account empty_account account_with_vm1
                    account_with_vm1 eq_refl eq_refl eq_refl eq_refl)
             vm1 []).
    reflexivity.
Defined.




(** ** More on the key flows *)

Lemma first_hit_none (finger label : string) (ks : list Key) :
  (forall k, In k ks -> key_fingerprint k <> finger /\ key_label k <> label) ->
  first_hit finger label ks = None.
Proof.
  induction ks as [|k r IH]; intros H; [reflexivity|].
  simpl. destruct (H k (or_introl eq_refl)) as [Hf Hl].
  apply String.eqb_neq in Hf, Hl. rewrite Hf, Hl.
  apply IH. intros k' Hk'. apply H. right. exact Hk'.
Qed.

(** When no listed key has the fingerprint or the label, the key is added
    under the requested label, once, after the listing; the key the
    provider returns is reported with changed=true, and a false value
    from the provider is reported as a failure. *)
Theorem create_key_adds_when_unlisted {W} (p : Provider W)
        (module : sl_sshkey.Params) (text finger : string) (ks : list Key)
        (w w1 : W) :
  sl_sshkey.state module = present ->
  sl_sshkey.public_key module = Some text ->
  sl_sshkey._get_fingerprint (Some text) = inr finger ->
  p (mgr.list_keys None) w = (Some ks, w1) ->
  (forall k, In k ks ->
             key_fingerprint k <> finger
             /\ key_label k <> sl_sshkey.label module) ->
  (forall key w2,
      p (mgr.add_key (Some text) (sl_sshkey.label module)) w1
      = (Some (Some key), w2) ->
      run p (sl_sshkey.main true module) w
      = (ExitJson true (key_ key) None,
         [mgr.list_keys None; mgr.add_key (Some text) (sl_sshkey.label module)],
         w2))
  /\ (forall w2,
         p (mgr.add_key (Some text) (sl_sshkey.label module)) w1
         = (Some None, w2) ->
         run p (sl_sshkey.main true module) w
         = (FailJson sl_sshkey.msg_not_created,
            [mgr.list_keys None; mgr.add_key (Some text) (sl_sshkey.label module)],
            w2)).
Proof.
  intros Hs Hpk Hfp Hl Hnone.
  rewrite (main_present p module w Hs).
  rewrite (create_key_run p module text finger ks w w1 Hpk Hfp Hl).
  rewrite (first_hit_none finger _ ks Hnone).
  split; intros; rewrite H; reflexivity.
Qed.

Lemma create_key_adds_when_unlisted_witness :
  run account (sl_sshkey.main true (key_request present "k1" (Some rsa_key)))
      (account_of_keys [key_k2])
  = (ExitJson true
       (key_ {| key_id := 3; key_label := "k1";
                key_fingerprint := rsa_fingerprint; key_text := rsa_key |})
       None,
     [mgr.list_keys None; mgr.add_key (Some rsa_key) "k1"],
     {| acct_keys :=
          [key_k2;
           {| key_id := 3; key_label := "k1";
              key_fingerprint := rsa_fingerprint; key_text := rsa_key |}];
        acct_instances := []; acct_next_id := 4 |})
  /\ run blank (sl_sshkey.main true (key_request present "k1" (Some rsa_key))) tt
     = (FailJson sl_sshkey.msg_not_created,
        [mgr.list_keys None; mgr.add_key (Some rsa_key) "k1"], tt).
Proof.
  split.
  - apply (proj1 (create_key_adds_when_unlisted account
                    (key_request present "k1" (Some rsa_key))
                    rsa_key rsa_fingerprint [key_k2]
                    (account_of_keys [key_k2]) (account_of_keys [key_k2])
                    eq_refl eq_refl eq_refl eq_refl
                    ltac:(intros k [<-|[]]; split; discriminate))).
    reflexivity.
  - apply (proj2 (create_key_adds_when_unlisted blank
                    (key_request present "k1" (Some rsa_key))
                    rsa_key rsa_fingerprint [] tt tt
                    eq_refl eq_refl eq_refl eq_refl
                    ltac:(intros k [])) tt).
    reflexivity.
Defined.

Lemma first_hit_without_conflict (finger label : string) (ks : list Key) :
  (forall k, In k ks -> key_label k = label -> key_fingerprint k = finger) ->
  first_hit finger label ks
  = match find (fun k => (key_fingerprint k =? finger)%string) ks with
    | Some k =>
        Some (ExitJson false (key_ k)
                (if (key_label k =? label)%string then None
                 else Some (sl_sshkey.msg_fingerprint_exists k)))
    | None => None
    end.
Proof.
  induction ks as [|k r IH]; intros H; [reflexivity|].
  simpl. destruct (key_fingerprint k =? finger)%string eqn:Ef; [reflexivity|].
  destruct (key_label k =? label)%string eqn:El.
  - apply String.eqb_eq in El. apply (H k (or_introl eq_refl)) in El.
    apply String.eqb_neq in Ef. contradiction.
  - apply IH. intros k' Hk'. apply H. right. exact Hk'.
Qed.

(** When every listed key that carries the requested label also has the
    requested fingerprint, the first listed key with the fingerprint is
    returned with changed=false, wherever it stands in the listing; the
    note is there exactly when its label is not the requested one, and
    nothing is added. *)
Theorem fingerprint_match_without_label_conflict {W} (p : Provider W)
        (module : sl_sshkey.Params) (text finger : string) (ks : list Key)
        (k : Key) (w w1 : W) :
  sl_sshkey.state module = present ->
  sl_sshkey.public_key module = Some text ->
  sl_sshkey._get_fingerprint (Some text) = inr finger ->
  p (mgr.list_keys None) w = (Some ks, w1) ->
  (forall k', In k' ks -> key_label k' = sl_sshkey.label module ->
              key_fingerprint k' = finger) ->
  find (fun k' => (key_fingerprint k' =? finger)%string) ks = Some k ->
  run p (sl_sshkey.main true module) w
  = (ExitJson false (key_ k)
       (if (key_label k =? sl_sshkey.label module)%string then None
        else Some (sl_sshkey.msg_fingerprint_exists k)),
     [mgr.list_keys None], w1).
Proof.
  intros Hs Hpk Hfp Hl Hok Hfind.
  rewrite (main_present p module w Hs).
  rewrite (create_key_run p module text finger ks w w1 Hpk Hfp Hl).
  rewrite (first_hit_without_conflict finger _ ks Hok), Hfind.
  reflexivity.
Qed.

Lemma fingerprint_match_without_label_conflict_witness :
  run account (sl_sshkey.main true (key_request present "k3" (Some rsa_key)))
      (account_of_keys [key_k2; key_k1])
  = (ExitJson false (key_ key_k1) (Some (sl_sshkey.msg_fingerprint_exists key_k1)),
     [mgr.list_keys None], account_of_keys [key_k2; key_k1]).
Proof.
  apply (fingerprint_match_without_label_conflict account
           (key_request present "k3" (Some rsa_key)) rsa_key rsa_fingerprint
           [key_k2; key_k1] key_k1
           (account_of_keys [key_k2; key_k1]) (account_of_keys [key_k2; key_k1])
           eq_refl eq_refl eq_refl eq_refl).
  - intros k' [<-|[<-|[]]]; discriminate.
  - reflexivity.
Defined.

Lemma first_hit_without_fingerprint (finger label : string) (ks : list Key) :
  (forall k, In k ks -> key_fingerprint k <> finger) ->
  first_hit finger label ks
  = if existsb (fun k => (key_label k =? label)%string) ks
    then Some (FailJson (sl_sshkey.msg_label_exists label))
    else None.
Proof.
  induction ks as [|k r IH]; intros H; [reflexivity|].
  simpl. pose proof (H k (or_introl eq_refl)) as Hf.
  apply String.eqb_neq in Hf. rewrite Hf.
  destruct (key_label k =? label)%string; [reflexivity|].
  apply IH. intros k' Hk'. apply H. right. exact Hk'.
Qed.

(** When no listed key has the requested fingerprint and one of them
    carries the requested label, the request fails with the label
    message after the listing, wherever that key stands: nothing is added
    and nothing is overwritten. *)
Theorem label_conflict_without_fingerprint {W} (p : Provider W)
        (module : sl_sshkey.Params) (text finger : string) (ks : list Key)
        (k : Key) (w w1 : W) :
  sl_sshkey.state module = present ->
  sl_sshkey.public_key module = Some text ->
  sl_sshkey._get_fingerprint (Some text) = inr finger ->
  p (mgr.list_keys None) w = (Some ks, w1) ->
  (forall k', In k' ks -> key_fingerprint k' <> finger) ->
  In k ks ->
  key_label k = sl_sshkey.label module ->
  run p (sl_sshkey.main true module) w
  = (FailJson (sl_sshkey.msg_label_exists (sl_sshkey.label module)),
     [mgr.list_keys None], w1).
Proof.
  intros Hs Hpk Hfp Hl Hnone Hin Hlab.
  rewrite (main_present p module w Hs).
  rewrite (create_key_run p module text finger ks w w1 Hpk Hfp Hl).
  rewrite (first_hit_without_fingerprint finger _ ks Hnone).
  assert (E : existsb (fun k' => (key_label k' =? sl_sshkey.label module)%string) ks
              = true).
  { apply existsb_exists. exists k. split; [exact Hin|].
    apply String.eqb_eq. exact Hlab. }
  rewrite E. reflexivity.
Qed.

Lemma label_conflict_without_fingerprint_witness :
  run account (sl_sshkey.main true (key_request present "k2" (Some rsa_key)))
      (account_of_keys [key_k1_again; key_k2])
  = (FailJson (sl_sshkey.msg_label_exists "k2"),
     [mgr.list_keys None], account_of_keys [key_k1_again; key_k2]).
Proof.
  apply (label_conflict_without_fingerprint account
           (key_request present "k2" (Some rsa_key)) rsa_key rsa_fingerprint
           [key_k1_again; key_k2] key_k2
           (account_of_keys [key_k1_again; key_k2])
           (account_of_keys [key_k1_again; key_k2])
           eq_refl eq_refl eq_refl eq_refl).
  - intros k' [<-|[<-|[]]]; discriminate.
  - right. left. reflexivity.
  - reflexivity.
Defined.

(** The calls of a key run, whatever the provider answers or raises: a
    present request makes none, or lists all keys, or lists them and
    adds the requested key under the requested label; an absent request
    lists the keys of the label and deletes at most one key, the only one
    listed.  So a present request never deletes, an absent request never
    adds, and no run makes more than two calls. *)
Theorem key_run_calls {W} (p : Provider W) (module : sl_sshkey.Params) (w : W) :
  match sl_sshkey.state module with
  | present =>
      calls (run p (sl_sshkey.main true module) w) = []
      \/ calls (run p (sl_sshkey.main true module) w) = [mgr.list_keys None]
      \/ calls (run p (sl_sshkey.main true module) w)
         = [mgr.list_keys None;
            mgr.add_key (sl_sshkey.public_key module) (sl_sshkey.label module)]
  | absent =>
      calls (run p (sl_sshkey.main true module) w)
      = [mgr.list_keys (Some (sl_sshkey.label module))]
      \/ exists k w1,
          p (mgr.list_keys (Some (sl_sshkey.label module))) w = (Some [k], w1)
          /\ calls (run p (sl_sshkey.main true module) w)
             = [mgr.list_keys (Some (sl_sshkey.label module));
                mgr.delete_key (key_id k)]
  end.
Proof.
  destruct (sl_sshkey.state module) eqn:Hs.
  - rewrite (main_present p module w Hs).
    destruct (sl_sshkey._get_fingerprint (sl_sshkey.public_key module))
      as [e|finger] eqn:Hfp.
    + left. rewrite (create_key_raises p module e w Hfp). reflexivity.
    + destruct (sl_sshkey.public_key module) as [text|] eqn:Hpk;
        [|discriminate Hfp].
      destruct (p (mgr.list_keys None) w) as [[ks|] w1] eqn:Hl.
      * rewrite (create_key_run p module text finger ks w w1 Hpk Hfp Hl).
        destruct (first_hit finger (sl_sshkey.label module) ks) as [o|].
        -- right. left. reflexivity.
        -- right. right.
           destruct (p (mgr.add_key (Some text) (sl_sshkey.label module)) w1)
             as [[[key|]|] w2]; reflexivity.
      * right. left. unfold sl_sshkey._create_key. rewrite Hpk, Hfp.
        cbn [lift bind call run]. rewrite Hl. reflexivity.
  - rewrite (main_absent p module w Hs).
    unfold sl_sshkey._delete_key. cbn [call bind run].
    destruct (p (mgr.list_keys (Some (sl_sshkey.label module))) w)
      as [[ks|] w1] eqn:Hl; [|left; reflexivity].
    destruct ks as [|k [|k' r]].
    + left. reflexivity.
    + right. exists k, w1. split; [reflexivity|].
      cbn. destruct (p (mgr.delete_key (key_id k)) w1) as [[[]|] w2]; reflexivity.
    + left.
      assert (E : (1 <? Z.of_nat (List.length (k :: k' :: r))) = true).
      { apply Z.ltb_lt. simpl List.length. lia. }
      rewrite E. reflexivity.
Qed.

(** ** The shape of a fingerprint *)

Lemma list_ascii_of_string_app (a b : string) :
  list_ascii_of_string (a ++ b)
  = list_ascii_of_string a ++ list_ascii_of_string b.
Proof. induction a as [|c a IH]; simpl; [reflexivity|]. rewrite IH. reflexivity. Qed.

Lemma hexchar_digit (n : Z) :
  0 <= n < 16 ->
  In (Hashlib.hexchar n) (list_ascii_of_string "0123456789abcdef").
Proof.
  intros H. rewrite <- (Z2Nat.id n) by lia.
  assert (Hm : (Z.to_nat n < 16)%nat) by lia.
  revert Hm. generalize (Z.to_nat n). intros m Hm.
  do 16 (destruct m as [|m]; [vm_compute; tauto|]).
  lia.
Qed.

Lemma hexbyte_digits (b : Z) :
  0 <= b < 256 ->
  Forall (fun c => In c (list_ascii_of_string "0123456789abcdef:"))
         (Hashlib.hexbyte b).
Proof.
  intros H.
  assert (Hin : forall c, In c (list_ascii_of_string "0123456789abcdef") ->
                          In c (list_ascii_of_string "0123456789abcdef:")).
  { intros c Hc.
    change (list_ascii_of_string "0123456789abcdef:")
      with (list_ascii_of_string "0123456789abcdef" ++ [":"%char]).
    apply in_or_app. left. exact Hc. }
  unfold Hashlib.hexbyte.
  apply Forall_cons; [|apply Forall_cons; [|apply Forall_nil]];
    apply Hin, hexchar_digit.
  - rewrite Z.shiftr_div_pow2 by lia. change (2 ^ 4) with 16.
    split; [apply Z.div_pos; lia | apply Z.div_lt_upper_bound; lia].
  - change 15 with (Z.ones 4). rewrite Z.land_ones by lia.
    change (2 ^ 4) with 16. apply Z.mod_pos_bound. lia.
Qed.

Lemma join_chars (P : ascii -> Prop) (sep : string) (parts : list string) :
  Forall P (list_ascii_of_string sep) ->
  Forall (fun s => Forall P (list_ascii_of_string s)) parts ->
  Forall P (list_ascii_of_string (PyStr.join sep parts)).
Proof.
  intros Hsep. induction 1 as [|x r Hx Hr IH]; [constructor|].
  destruct r as [|y r']; [exact Hx|].
  change (PyStr.join sep (x :: y :: r'))
    with (x ++ (sep ++ PyStr.join sep (y :: r')))%string.
  rewrite !list_ascii_of_string_app.
  apply Forall_app. split; [exact Hx|].
  apply Forall_app. split; [exact Hsep|exact IH].
Qed.

Lemma render_digits (d : list Z) :
  Forall (fun b => 0 <= b < 256) d ->
  Forall (fun c => In c (list_ascii_of_string "0123456789abcdef:"))
         (list_ascii_of_string (Spec.render d)).
Proof.
  intros H. unfold Spec.render. apply join_chars.
  - apply Forall_cons; [|apply Forall_nil]. vm_compute. tauto.
  - apply Forall_map. revert H. apply Forall_impl. intros b Hb.
    rewrite list_ascii_of_string_of_list_ascii. apply (hexbyte_digits b Hb).
Qed.

Lemma le_bytes_range (n : nat) (x : Z) :
  Forall (fun b => 0 <= b < 256) (Hashlib.le_bytes n x).
Proof.
  revert x. induction n as [|n IH]; intros x; simpl; constructor; [|apply IH].
  change 255 with (Z.ones 8). rewrite Z.land_ones by lia.
  apply Z.mod_pos_bound. reflexivity.
Qed.

Lemma md5_range (msg : list Z) :
  Forall (fun b => 0 <= b < 256) (Hashlib.md5 msg).
Proof.
  unfold Hashlib.md5.
  destruct (Hashlib.blocks _ _ _) as [[[A B] C] D].
  repeat (apply Forall_app; split); apply le_bytes_range.
Qed.

(** Whenever [_get_fingerprint] returns, the fingerprint has 47
    characters, each a lowercase hex digit or a colon: it is the
    rendering of 16 bytes. *)
Theorem fingerprint_shape (text fp : string) :
  sl_sshkey._get_fingerprint (Some text) = inr fp ->
  String.length fp = 47%nat
  /\ Forall (fun c => In c (list_ascii_of_string "0123456789abcdef:"))
            (list_ascii_of_string fp)
  /\ exists digest,
      List.length digest = 16%nat /\ fp = Spec.render digest.
Proof.
  intros H. split; [exact (fingerprint_length text fp H)|].
  pose proof (get_fingerprint_as_spec text) as R.
  rewrite H in R. simpl in R. unfold Spec.computeFingerprint in R.
  destruct (Spec.second_field text) as [field|]; [|discriminate].
  destruct (Spec.decode field) as [e|key]; [discriminate|].
  injection R as ->. split.
  - apply render_digits, md5_range.
  - exists (Hashlib.md5 key). split; [apply md5_length|reflexivity].
Qed.

Lemma fingerprint_shape_witness :
  String.length rsa_fingerprint = 47%nat
  /\ Forall (fun c => In c (list_ascii_of_string "0123456789abcdef:"))
            (list_ascii_of_string rsa_fingerprint)
  /\ exists digest,
      List.length digest = 16%nat /\ rsa_fingerprint = Spec.render digest.
Proof.
  apply (fingerprint_shape rsa_key rsa_fingerprint). reflexivity.
Defined.

(** ** More on the server flows *)

Lemma only_run {W} (p : Provider W) (P : mgr.Call -> bool) {A} (q : Prog A) :
  only P q -> forall w, forallb P (calls (run p q w)) = true.
Proof.
  induction q as [a|o|c k IH]; intros Hq w; [reflexivity|reflexivity|].
  destruct Hq as [Hc Hk]. simpl.
  destruct (p c w) as [[r|] w'].
  - specialize (IH r (Hk r) w').
    destruct (run p (k r) w') as [[o cs] w'']. unfold calls in *. simpl in *.
    rewrite Hc. exact IH.
  - unfold calls. simpl. rewrite Hc. reflexivity.
Qed.

Lemma only_bind (P : mgr.Call -> bool) {A B} (q : Prog A) (f : A -> Prog B) :
  only P q -> (forall a, only P (f a)) -> only P (bind q f).
Proof.
  intros Hq Hf. induction q as [a|o|c k IH]; simpl.
  - apply Hf.
  - exact I.
  - destruct Hq as [Hc Hk]. split; [exact Hc|].
    intros r. apply IH, Hk.
Qed.

Lemma only_call (P : mgr.Call -> bool) (c : mgr.Call) :
  P c = true -> only P (call c).
Proof. intros H. split; [exact H|]. intros r. exact I. Qed.

Lemma only_when (P : mgr.Call -> bool) (c : bool) (body : Prog unit) :
  only P body -> only P (when c body).
Proof. intros H. destruct c; [exact H|exact I]. Qed.

Lemma only_for_each (P : mgr.Call -> bool) {A} (l : list A)
      (body : A -> Prog unit) :
  (forall x, only P (body x)) -> only P (for_each l body).
Proof.
  intros H. induction l as [|x r IH]; [exact I|].
  simpl. apply only_bind; [apply H|]. intros _. exact IH.
Qed.

(** The checks of [_create_server] make no call: they stop the run or
    hand over the specifications. *)
Lemma order_specs_pure (module : sl_vs_server.Params) :
  (exists msg, sl_vs_server.order_specs module = Stop (FailJson msg))
  \/ (exists specs, sl_vs_server.order_specs module = Ret specs).
Proof.
  unfold sl_vs_server.order_specs.
  cbn [sl_vs_server.basic_specs dict_keys map fst for_each getitem String.eqb
       Ascii.eqb Bool.eqb].
  repeat match goal with
         | |- context [when (negb (truthy ?v)) _] =>
             destruct (truthy v); cbn [negb when bind fail_json];
             [|left; eexists; reflexivity]
         end.
  destruct (truthy (of_opt PInt (sl_vs_server.image_id module)));
    destruct (truthy (of_opt PStr (sl_vs_server.os_code module)));
    cbn [andb bind fail_json];
    first [left; eexists; reflexivity | right; eexists; reflexivity].
Qed.

Lemma only_order_specs (P : mgr.Call -> bool) (module : sl_vs_server.Params) :
  only P (sl_vs_server.order_specs module).
Proof.
  destruct (order_specs_pure module) as [[msg ->]|[specs ->]]; exact I.
Qed.

Lemma server_calls_only {W} (p : Provider W) (module : sl_vs_server.Params)
        (w : W) :
  forallb (match sl_vs_server.state module with
           | present => server_present_call module
           | absent => server_absent_call module
           end)
          (calls (run p (sl_vs_server.main true module) w))
  = true.
Proof.
  apply only_run. unfold sl_vs_server.main.
  cbn [negb when bind].
  destruct (sl_vs_server.state module).
  - apply only_bind.
    { apply only_call. simpl. rewrite !String.eqb_refl. reflexivity. }
    intros [|first rest].
    + unfold sl_vs_server._create_server.
      apply only_bind; [apply only_order_specs|]. intros specs.
      apply only_bind; [apply only_call; reflexivity|]. intros _.
      apply only_bind.
      { apply only_call. simpl. rewrite !String.eqb_refl. reflexivity. }
      intros [|inst rest]; [exact I|]. cbn [bind].
      apply only_bind.
      { apply only_when. apply only_bind; [apply only_call; reflexivity|].
        intros [|]; exact I. }
      intros _. apply only_bind; [apply only_call; reflexivity|].
      intros full. exact I.
    + apply only_bind; [apply only_call; reflexivity|]. intros full. exact I.
  - unfold sl_vs_server._delete_server, sl_vs_server._find_servers.
    apply only_bind.
    { apply only_call. simpl. rewrite !String.eqb_refl. reflexivity. }
    intros inst. apply only_bind.
    { apply only_when. exact I. }
    intros _. apply only_bind; [|intros _; exact I].
    apply only_for_each. intros server.
    apply only_bind; [apply only_call; reflexivity|]. intros _.
    apply only_bind; [apply only_call; reflexivity|]. intros _. exact I.
Qed.

(** The calls of a server run, whatever the provider answers or raises.
    A present request only lists by hostname and domain, without the
    datacenter, fetches, orders and waits for readiness, for 900 seconds:
    it never cancels.  An absent request only lists by hostname and
    domain, waits for transactions, for 900 seconds, and cancels: it
    never orders. *)
Theorem server_run_calls {W} (p : Provider W) (module : sl_vs_server.Params)
        (w : W) :
  forallb (match sl_vs_server.state module with
           | present => server_present_call module
           | absent => server_absent_call module
           end)
          (calls (run p (sl_vs_server.main true module) w))
  = true.
Proof. exact (server_calls_only p module w). Qed.

(** A present request that finds no server and lacks a basic
    specification fails naming the first one that has no value, after
    the listing call: nothing is ordered. *)
Theorem missing_field_is_named {W} (p : Provider W)
        (module : sl_vs_server.Params) (key : string) (w w1 : W) :
  sl_vs_server.state module = present ->
  p (mgr.list_instances (sl_vs_server.hostname module)
                        (sl_vs_server.domain module) None) w
  = (Some [], w1) ->
  first_missing module = Some key ->
  run p (sl_vs_server.main true module) w
  = (FailJson (sl_vs_server.msg_must_be_specified key),
     [mgr.list_instances (sl_vs_server.hostname module)
                         (sl_vs_server.domain module) None], w1).
Proof.
  intros Hs Hl Hm.
  rewrite (server_main_present p module w Hs), Hl. cbv zeta.
  unfold sl_vs_server._create_server, sl_vs_server.order_specs.
  unfold first_missing in Hm.
  cbn [sl_vs_server.basic_specs find snd] in Hm.
  cbn [sl_vs_server.basic_specs dict_keys map fst for_each getitem String.eqb
       Ascii.eqb Bool.eqb].
  repeat match goal with
         | |- context [when (negb (truthy ?v)) _] =>
             destruct (truthy v); cbn [negb when bind fail_json] in *;
             [|injection Hm as <-; reflexivity]
         end.
  discriminate Hm.
Qed.

Lemma missing_field_is_named_witness :
  run account
      (sl_vs_server.main true
         (server_request present "vm1" "d.com" None (Some "UBUNTU_LATEST")
            None true))
      empty_account
  = (FailJson "datacenter must be specified to order instance",
     [mgr.list_instances "vm1" "d.com" None], empty_account).
Proof.
  apply (missing_field_is_named account
           (server_request present "vm1" "d.com" None (Some "UBUNTU_LATEST")
              None true)
           "datacenter" empty_account empty_account);
    reflexivity.
Defined.

Lemma order_specs_ret_valid (module : sl_vs_server.Params) (specs : dict) :
  sl_vs_server.order_specs module = Ret specs ->
  forallb (fun kv => truthy (snd kv)) (sl_vs_server.basic_specs module) = true
  /\ xorb (truthy (of_opt PInt (sl_vs_server.image_id module)))
          (truthy (of_opt PStr (sl_vs_server.os_code module))) = true.
Proof.
  intros H. unfold sl_vs_server.order_specs in H.
  cbn [sl_vs_server.basic_specs dict_keys map fst for_each getitem String.eqb
       Ascii.eqb Bool.eqb] in H.
  repeat match type of H with
         | context [when (negb (truthy ?v)) _] =>
             destruct (truthy v) eqn:?; cbn [negb when bind fail_json] in H;
             [|discriminate H]
         end.
  split.
  - cbn [sl_vs_server.basic_specs forallb snd].
    repeat match goal with
           | E : truthy _ = true |- _ => rewrite E; clear E
           end.
    reflexivity.
  - destruct (truthy (of_opt PInt (sl_vs_server.image_id module)));
      destruct (truthy (of_opt PStr (sl_vs_server.os_code module)));
      cbn [andb bind fail_json] in H; first [discriminate H | reflexivity].
Qed.

Ltac in_calls H :=
  cbn [bind call run when exit_json fail_json raise] in H;
  unfold calls, outcome, world in H; cbn [fst snd In] in H;
  repeat match type of H with
         | _ \/ _ => destruct H as [H|H]
         | False => destruct H
         | _ = _ => first [discriminate H | injection H as <-]
         end.

Lemma create_call_is_checked {W} (p : Provider W)
      (module : sl_vs_server.Params) (specs : dict) (w : W) :
  In (mgr.create_instance specs)
     (calls (run p (sl_vs_server.main true module) w)) ->
  sl_vs_server.state module = present
  /\ sl_vs_server.order_specs module = Ret specs.
Proof.
  intros Hin.
  destruct (sl_vs_server.state module) eqn:Hs.
  - split; [reflexivity|].
    rewrite (server_main_present p module w Hs) in Hin.
    destruct (p (mgr.list_instances _ _ None) w) as [[[|first rest]|] w1];
      [| |in_calls Hin].
    + cbv zeta in Hin.
      destruct (order_specs_pure module) as [[msg Ho]|[s Ho]].
      * unfold sl_vs_server._create_server in Hin. rewrite Ho in Hin.
        in_calls Hin.
      * destruct (p (mgr.create_instance s) w1) as [[[]|] w2] eqn:Hc.
        -- rewrite (create_server_run p module s w1 w2 Ho Hc) in Hin.
           destruct (p (mgr.list_instances _ _ None) w2)
             as [[[|inst rest]|] w3];
             [in_calls Hin; exact Ho| |in_calls Hin; exact Ho].
           cbv zeta in Hin.
           destruct (sl_vs_server.wait_for_ready module);
             cbn [when bind call run] in Hin.
           ++ destruct (p (mgr.wait_for_ready (inst_id inst) 900) w3)
                as [[[|]|] w4]; in_calls Hin; exact Ho.
           ++ destruct (p (mgr.get_instance (inst_id inst)) w3)
                as [[full|] w4]; in_calls Hin; exact Ho.
        -- unfold sl_vs_server._create_server in Hin. rewrite Ho in Hin.
           cbn [bind call run] in Hin. rewrite Hc in Hin.
           in_calls Hin. exact Ho.
    + cbv zeta in Hin. cbn [bind call run] in Hin.
      destruct (p (mgr.get_instance (inst_id first)) w1) as [[full|] w2];
        in_calls Hin.
  - pose proof (server_calls_only p module w) as Hall.
    rewrite Hs in Hall. rewrite forallb_forall in Hall.
    apply Hall in Hin. discriminate Hin.
Qed.

(** Nothing is ordered that was not checked: a run that calls
    [create_instance] is a present request with every basic specification
    given and exactly one of [image_id] and [os_code], and what it orders
    is the specifications [_create_server] built, whatever the provider
    answers. *)
Theorem order_only_when_checked {W} (p : Provider W)
        (module : sl_vs_server.Params) (specs : dict) (w : W) :
  In (mgr.create_instance specs)
     (calls (run p (sl_vs_server.main true module) w)) ->
  sl_vs_server.state module = present
  /\ sl_vs_server.order_specs module = Ret specs
  /\ forallb (fun kv => truthy (snd kv)) (sl_vs_server.basic_specs module) = true
  /\ xorb (truthy (of_opt PInt (sl_vs_server.image_id module)))
          (truthy (of_opt PStr (sl_vs_server.os_code module))) = true.
Proof.
  intros Hin.
  destruct (create_call_is_checked p module specs w Hin) as [Hs Ho].
  destruct (order_specs_ret_valid module specs Ho) as [Hb Hx].
  repeat split; assumption.
Qed.

Lemma order_only_when_checked_witness :
  sl_vs_server.state (vm1_request true) = present
  /\ sl_vs_server.order_specs (vm1_request true) = Ret vm1_specs
  /\ forallb (fun kv => truthy (snd kv))
             (sl_vs_server.basic_specs (vm1_request true)) = true
  /\ xorb (truthy (of_opt PInt (sl_vs_server.image_id (vm1_request true))))
          (truthy (of_opt PStr (sl_vs_server.os_code (vm1_request true)))) = true.
Proof.
  apply (order_only_when_checked account (vm1_request true) vm1_specs
           empty_account).
  vm_compute. right. left. reflexivity.
Defined.

Lemma create_with_wait_returns_listed_witness :
  run account (sl_vs_server.main true (vm1_request true)) empty_account
  = (ExitJson true (server_ vm1) None,
     [mgr.list_instances "vm1" "d.com" None; mgr.create_instance vm1_specs;
      mgr.list_instances "vm1" "d.com" None; mgr.wait_for_ready 1 900],
     account_with_vm1)
  /\ run never_ready (sl_vs_server.main true (vm1_request true)) empty_account
     = (FailJson sl_vs_server.msg_timeout,
        [mgr.list_instances "vm1" "d.com" None; mgr.create_instance vm1_specs;
         mgr.list_instances "vm1" "d.com" None; mgr.wait_for_ready 1 900],
        account_with_vm1).
Proof.
  split.
  - apply (create_with_wait_returns_listed account (vm1_request true)
             vm1_specs vm1 [] true
             empty_account empty_account account_with_vm1 account_with_vm1
             account_with_vm1);
      reflexivity.
  - apply (create_with_wait_returns_listed never_ready (vm1_request true)
             vm1_specs vm1 [] false
             empty_account empty_account account_with_vm1 account_with_vm1
             account_with_vm1);
      reflexivity.
Defined.

(** ** The specifications of an order *)

Lemma getitem_setitem_same (d : dict) (key : string) (v : PyVal) :
  getitem (setitem d key v) key = Some v.
Proof.
  induction d as [|[k v'] r IH]; simpl.
  - rewrite String.eqb_refl. reflexivity.
  - destruct (k =? key)%string eqn:E; simpl; rewrite E; [reflexivity|exact IH].
Qed.

Lemma getitem_setitem_other (d : dict) (key other : string) (v : PyVal) :
  key <> other ->
  getitem (setitem d key v) other = getitem d other.
Proof.
  intros Hne. induction d as [|[k v'] r IH]; simpl.
  - apply String.eqb_neq in Hne. rewrite Hne. reflexivity.
  - destruct (k =? key)%string eqn:E; simpl.
    + apply String.eqb_eq in E. subst k.
      apply String.eqb_neq in Hne. rewrite Hne. reflexivity.
    + destruct (k =? other)%string; [reflexivity|exact IH].
Qed.

(** After the loop over the optional parameters a key holds the
    parameter of its name when that is one of the names and has a value,
    and what it held before otherwise. *)
Lemma getitem_add_optional (module : sl_vs_server.Params)
      (names : list string) (d : dict) (key : string) :
  getitem (sl_vs_server.add_optional module names d) key
  = if existsb (String.eqb key) names
       && truthy (sl_vs_server.params module key)
    then Some (sl_vs_server.params module key)
    else getitem d key.
Proof.
  unfold sl_vs_server.add_optional.
  revert d. induction names as [|n r IH]; intros d; [reflexivity|].
  cbn [fold_left existsb]. rewrite IH.
  destruct (key =? n)%string eqn:E.
  - apply String.eqb_eq in E. subst n. cbn [orb].
    destruct (truthy (sl_vs_server.params module key)) eqn:T.
    + rewrite andb_true_r, getitem_setitem_same.
      destruct (existsb (String.eqb key) r); reflexivity.
    + rewrite andb_false_r. reflexivity.
  - cbn [orb].
    destruct (existsb (String.eqb key) r && truthy (sl_vs_server.params module key));
      [reflexivity|].
    destruct (truthy (sl_vs_server.params module n)); [|reflexivity].
    apply getitem_setitem_other. intros ->.
    rewrite String.eqb_refl in E. discriminate E.
Qed.

Lemma order_specs_built (module : sl_vs_server.Params) (specs : dict) :
  sl_vs_server.order_specs module = Ret specs ->
  specs
  = sl_vs_server.add_optional module sl_vs_server.optional_params
      (setitem
         (setitem
            (setitem (sl_vs_server.basic_specs module)
               (if truthy (of_opt PInt (sl_vs_server.image_id module))
                then "image_id" else "os_code")
               (if truthy (of_opt PInt (sl_vs_server.image_id module))
                then of_opt PInt (sl_vs_server.image_id module)
                else of_opt PStr (sl_vs_server.os_code module)))
            "local_disk" (PBool (sl_vs_server.local_disk module)))
         "dedicated" (PBool (sl_vs_server.dedicated module))).
Proof.
  intros H.
  destruct (order_specs_ret_valid module specs H) as [Hb Hx].
  rewrite (order_specs_checked module Hb) in H. cbv zeta in H.
  destruct (truthy (of_opt PInt (sl_vs_server.image_id module)));
    destruct (truthy (of_opt PStr (sl_vs_server.os_code module)));
    try discriminate Hx; cbn [andb orb] in H; injection H as <-; reflexivity.
Qed.

(** The specifications of an order carry the request's domain, hostname,
    memory, cpus and datacenter, hourly billing, the two flags, and the
    image id or else the OS code, never both. *)
Theorem order_carries_request (module : sl_vs_server.Params) (specs : dict) :
  sl_vs_server.order_specs module = Ret specs ->
  getitem specs "domain" = Some (PStr (sl_vs_server.domain module))
  /\ getitem specs "hostname" = Some (PStr (sl_vs_server.hostname module))
  /\ getitem specs "memory" = Some (PInt (sl_vs_server.memory module))
  /\ getitem specs "cpus" = Some (PInt (sl_vs_server.cpus module))
  /\ getitem specs "datacenter"
     = Some (of_opt PStr (sl_vs_server.datacenter module))
  /\ getitem specs "hourly" = Some (PBool true)
  /\ getitem specs "local_disk" = Some (PBool (sl_vs_server.local_disk module))
  /\ getitem specs "dedicated" = Some (PBool (sl_vs_server.dedicated module))
  /\ getitem specs "image_id"
     = (if truthy (of_opt PInt (sl_vs_server.image_id module))
        then Some (of_opt PInt (sl_vs_server.image_id module)) else None)
  /\ getitem specs "os_code"
     = (if truthy (of_opt PInt (sl_vs_server.image_id module))
        then None else Some (of_opt PStr (sl_vs_server.os_code module))).
Proof.
  intros H.
  destruct (order_specs_ret_valid module specs H) as [Hb _].
  assert (Hh : sl_vs_server.hourly module = true).
  { cbn [sl_vs_server.basic_specs forallb snd] in Hb.
    repeat (apply andb_prop in Hb; destruct Hb as [? Hb]).
    assumption. }
  rewrite (order_specs_built module specs H).
  rewrite !getitem_add_optional.
  cbn [sl_vs_server.optional_params existsb String.eqb Ascii.eqb Bool.eqb
       orb andb].
  destruct (truthy (of_opt PInt (sl_vs_server.image_id module)));
    cbn [sl_vs_server.basic_specs setitem getitem String.eqb Ascii.eqb Bool.eqb];
    rewrite Hh; repeat split; reflexivity.
Qed.

Lemma order_carries_request_witness :
  getitem vm1_specs "domain" = Some (PStr "d.com")
  /\ getitem vm1_specs "hostname" = Some (PStr "vm1")
  /\ getitem vm1_specs "memory" = Some (PInt 16)
  /\ getitem vm1_specs "cpus" = Some (PInt 8)
  /\ getitem vm1_specs "datacenter" = Some (PStr "dal05")
  /\ getitem vm1_specs "hourly" = Some (PBool true)
  /\ getitem vm1_specs "local_disk" = Some (PBool true)
  /\ getitem vm1_specs "dedicated" = Some (PBool false)
  /\ getitem vm1_specs "image_id" = None
  /\ getitem vm1_specs "os_code" = Some (PStr "UBUNTU_LATEST").
Proof.
  apply (order_carries_request (vm1_request true) vm1_specs). reflexivity.
Defined.

(** An optional parameter is part of the order exactly when it has a
    value Python counts as true: [None], [0], [False], an empty string
    and an empty list are left out. *)
Theorem optional_parameter_passed_when_true (module : sl_vs_server.Params)
        (specs : dict) (name : string) :
  sl_vs_server.order_specs module = Ret specs ->
  In name sl_vs_server.optional_params ->
  getitem specs name
  = if truthy (sl_vs_server.params module name)
    then Some (sl_vs_server.params module name)
    else None.
Proof.
  intros H Hin.
  rewrite (order_specs_built module specs H), getitem_add_optional.
  assert (E : existsb (String.eqb name) sl_vs_server.optional_params = true).
  { apply existsb_exists. exists name. split; [exact Hin|apply String.eqb_refl]. }
  rewrite E. cbn [andb].
  destruct (truthy (sl_vs_server.params module name)); [reflexivity|].
  cbn [sl_vs_server.optional_params In] in Hin.
  repeat (destruct Hin as [<-|Hin];
          [destruct (truthy (of_opt PInt (sl_vs_server.image_id module)));
           reflexivity|]).
  destruct Hin.
Qed.

Lemma optional_parameter_passed_when_true_witness :
  getitem vm1_tagged_specs "tags" = Some (PStr "yellow")
  /\ getitem vm1_tagged_specs "nic_speed" = None
  /\ getitem vm1_tagged_specs "private" = None.
Proof.
  split; [|split].
  - apply (optional_parameter_passed_when_true vm1_tagged vm1_tagged_specs "tags");
      [reflexivity|].
    vm_compute. tauto.
  - apply (optional_parameter_passed_when_true vm1_tagged vm1_tagged_specs
             "nic_speed"); [reflexivity|].
    vm_compute. tauto.
  - apply (optional_parameter_passed_when_true vm1_tagged vm1_tagged_specs
             "private"); [reflexivity|].
    vm_compute. tauto.
Defined.

(** [public_ip] and [private_ip] are accepted and never read: a run does
    the same whatever they hold. *)
Theorem ips_are_ignored {W} (p : Provider W) (module : sl_vs_server.Params)
        (pub priv : option string) (w : W) :
  run p (sl_vs_server.main true (with_ips module pub priv)) w
  = run p (sl_vs_server.main true module) w.
Proof. destruct module. reflexivity. Qed.

(** ** A cancellation the provider refuses *)




Example refused_cancellation_leaves_the_rest :
  map inst_id
      (acct_instances
         (world (run (locked 2)
                     (sl_vs_server.main true
                        (server_request absent "to_delete" "trash-it.com" None
                           None None true))
                     (account_of_instances [trash 1; trash 2; trash 3]))))
  = [2; 3].
Proof. vm_compute. reflexivity. Qed.

(** ** sl_config.py: the credentials file *)

Example credentials_file_text :
  sl_config.contents (config_request None)
  = ("[softlayer]" ++ sl_config.newline
     ++ "username = user1" ++ sl_config.newline
     ++ "api_key = blahblahblah" ++ sl_config.newline
     ++ "endpoint_url = https://api.softlayer.com/xmlrpc/v3.1/" ++ sl_config.newline
     ++ "timeout = 60")%string.
Proof. vm_compute. reflexivity. Qed.

(** An empty [custom_url] counts as none: the file then names the default
    endpoint, as it does when the default endpoint is given in full. *)
Theorem empty_custom_url_is_default (u k : string) (t : Z) :
  sl_config.contents
    {| sl_config.username := u; sl_config.api_key := k;
       sl_config.timeout := t; sl_config.custom_url := Some "" |}
  = sl_config.contents
      {| sl_config.username := u; sl_config.api_key := k;
         sl_config.timeout := t; sl_config.custom_url := None |}
  /\ sl_config.contents
       {| sl_config.username := u; sl_config.api_key := k;
          sl_config.timeout := t; sl_config.custom_url := None |}
     = sl_config.contents
         {| sl_config.username := u; sl_config.api_key := k;
            sl_config.timeout := t;
            sl_config.custom_url := Some sl_config.default_endpoint |}.
Proof. split; reflexivity. Qed.

(** ** Monthly billing *)

(** A request with [hourly=False] never orders a server: the loop over
    the basic specifications takes the false value for a missing one, so
    no run of it calls [create_instance], whatever the provider answers. *)
Theorem monthly_billing_never_ordered {W} (p : Provider W)
        (module : sl_vs_server.Params) (w : W) :
  sl_vs_server.hourly module = false ->
  forallb (fun c => negb (is_create c))
          (calls (run p (sl_vs_server.main true module) w)) = true.
Proof.
  intros Hh. apply forallb_forall. intros c Hc.
  destruct c; try reflexivity.
  destruct (create_call_is_checked p module instance_specs w Hc) as [_ Ho].
  destruct (order_specs_ret_valid module instance_specs Ho) as [Hb _].
  cbn [sl_vs_server.basic_specs forallb snd] in Hb.
  rewrite Hh in Hb. cbn [truthy] in Hb.
  rewrite !andb_false_r in Hb. discriminate Hb.
Qed.

Lemma monthly_billing_never_ordered_witness :
  forallb (fun c => negb (is_create c))
          (calls (run account (sl_vs_server.main true vm1_monthly) empty_account))
  = true.
Proof.
  apply (monthly_billing_never_ordered account vm1_monthly empty_account).
  reflexivity.
Defined.

Lemma fingerprint_listed_first_wins_witness :
  run account (sl_sshkey.main true (key_request present "k2" (Some rsa_key)))
      (account_of_keys [key_k1_again; key_k1; key_k2])
  = (ExitJson false (key_ key_k1) (Some (sl_sshkey.msg_fingerprint_exists key_k1)),
     [mgr.list_keys None], account_of_keys [key_k1_again; key_k1; key_k2]).
Proof.
  apply (fingerprint_listed_first_wins account
           (key_request present "k2" (Some rsa_key)) rsa_key rsa_fingerprint
           [key_k1_again] key_k1 [key_k2]
           (account_of_keys [key_k1_again; key_k1; key_k2])
           (account_of_keys [key_k1_again; key_k1; key_k2])
           eq_refl eq_refl eq_refl eq_refl).
  - intros k' [<-|[]]. split; reflexivity.
  - reflexivity.
Defined.
